(** * slitflow.fig.figure: figure persistence and figure-to-RGB conversion

    A shallow embedding of [src/slitflow/fig/figure.py]:
    - [Figure.save_data]  (persist a figure, then clear the pyplot context),
    - [ToTiff.set_info]   (metadata propagation: dpi, pitch, scalebar,
                           split depth),
    - [ToTiff.process]    (scale-bar overlay, then rasterisation),
    - [get_stack]         (canvas buffer to three flipped colour planes).

    Conventions of the embedding.
    - Python objects are values of [pyval]; the operators the source applies
      to them ([-], [*], [/], [+], subscripting, truth testing) are written
      out with the exceptions they raise.
    - A Python float is an IEEE 754 binary64 number, here a primitive
      [float]: the operations round as Python's do, a result too large is
      [infinity], and an [int] that takes part in float arithmetic is first
      converted, which raises OverflowError when it is too large.
    - Mutable objects ([self.info], the parameter dictionaries, the figure,
      the pyplot context) live in an explicit state that every method
      threads; a raised exception keeps the mutations made before it.
    - What belongs to other libraries or to parts of the package that are
      not at hand (the rendering backend, the validation done by
      [Axes.plot], the save of the base class, two constants of the metadata
      class) is a parameter. *)

From Stdlib Require Import ZArith Lia PrimFloat FloatOps SpecFloat FloatAxioms.
From stdpp Require Import base option list strings gmap.

Set Warnings "-register-all,-inexact-float".
Open Scope Z_scope.

(** ** Python values *)

Inductive pyval : Type :=
| PNone
| PInt (z : Z)
| PFloat (x : float)
| PStr (s : string)
| PList (l : list pyval).

Inductive exn : Type :=
| KeyError (k : string)
| IndexError
| TypeError
| ZeroDivisionError
| OverflowError
| MemoryError
| ValueError
| OSError.

Inductive outcome (A : Type) : Type :=
| Ok (a : A)
| Raise (e : exn).
Arguments Ok {A} a.
Arguments Raise {A} e.

Module Py.

(** [bool(v)]: None, zero, the empty string and the empty list are false.
    Both float zeros are false, NaN is true. *)
Definition truthy (v : pyval) : bool :=
  match v with
  | PNone => false
  | PInt z => negb (z =? 0)
  | PFloat x => negb (PrimFloat.eqb x 0)
  | PStr s => negb (String.eqb s "")
  | PList l => negb (Nat.eqb (length l) 0)
  end.

(** [v is not None] *)
Definition is_not_none (v : pyval) : bool :=
  match v with PNone => false | _ => true end.

(** The float nearest to an int (ties to even); an infinity when the int
    is beyond the largest float. *)
Definition nearest_float (z : Z) : float :=
  SF2Prim (binary_normalize prec emax z 0 false).

(** The conversion of an int operand of a float operation: the nearest
    float, OverflowError when the int is too large. *)
Definition float_of_int (z : Z) : outcome float :=
  let x := nearest_float z in
  if PrimFloat.is_infinity x then Raise OverflowError else Ok x.

(** A numeric operand of a float operation. *)
Definition as_float (v : pyval) : outcome float :=
  match v with
  | PInt z => float_of_int z
  | PFloat x => Ok x
  | _ => Raise TypeError
  end.

(** Float arithmetic on two numeric operands: both are converted, the left
    one first, then the operation is applied. *)
Definition float_op (op : float → float → float) (a b : pyval)
    : outcome pyval :=
  match as_float a with
  | Ok x =>
      match as_float b with
      | Ok y => Ok (PFloat (op x y))
      | Raise e => Raise e
      end
  | Raise e => Raise e
  end.

(** The largest index of the machine ([sys.maxsize], 64 bits). *)
Definition ssize_max : Z := 2 ^ 63 - 1.

(** The number of copies a sequence of length [len] times [n] is made of:
    [n] must fit an index (OverflowError), a negative [n] counts as 0, and
    the length of the result must fit an index as well ([too_long]).
    Running out of memory is not modelled. *)
Definition repeat_count (too_long : exn) (n : Z) (len : nat) : outcome nat :=
  if (n <? - ssize_max - 1) || (ssize_max <? n) then Raise OverflowError
  else if (n <=? 0) || Nat.eqb len 0 then Ok O
  else if ssize_max / n <? Z.of_nat len then Raise too_long
  else Ok (Z.to_nat n).

Definition list_repeat (n : Z) (l : list pyval) : outcome pyval :=
  match repeat_count MemoryError n (length l) with
  | Ok k => Ok (PList (Nat.iter k (app l) []))
  | Raise e => Raise e
  end.

Definition str_repeat (n : Z) (s : string) : outcome pyval :=
  match repeat_count OverflowError n (String.length s) with
  | Ok k => Ok (PStr (Nat.iter k (String.append s) ""))
  | Raise e => Raise e
  end.

(** [a - b] *)
Definition sub (a b : pyval) : outcome pyval :=
  match a, b with
  | PInt x, PInt y => Ok (PInt (x - y))
  | PInt _, PFloat _ | PFloat _, PInt _ | PFloat _, PFloat _ =>
      float_op PrimFloat.sub a b
  | _, _ => Raise TypeError
  end.

(** [a + b]: numbers add, lists and strings concatenate. *)
Definition add (a b : pyval) : outcome pyval :=
  match a, b with
  | PInt x, PInt y => Ok (PInt (x + y))
  | PInt _, PFloat _ | PFloat _, PInt _ | PFloat _, PFloat _ =>
      float_op PrimFloat.add a b
  | PList x, PList y => Ok (PList (x ++ y))
  | PStr x, PStr y => Ok (PStr (String.append x y))
  | _, _ => Raise TypeError
  end.

(** [a * b]: numbers multiply, a sequence times an int is repeated. *)
Definition mul (a b : pyval) : outcome pyval :=
  match a, b with
  | PInt x, PInt y => Ok (PInt (x * y))
  | PInt _, PFloat _ | PFloat _, PInt _ | PFloat _, PFloat _ =>
      float_op PrimFloat.mul a b
  | PList l, PInt n | PInt n, PList l => list_repeat n l
  | PStr s, PInt n | PInt n, PStr s => str_repeat n s
  | _, _ => Raise TypeError
  end.

(** [x * b] for a float [x]: [b] must be a number; the result is a float. *)
Definition mul_float (x : float) (b : pyval) : outcome float :=
  match as_float b with
  | Ok y => Ok (PrimFloat.mul x y)
  | Raise e => Raise e
  end.

(** [a / y] for a float [y] (true division): [a] must be a number and is
    converted first; then a zero divisor, of either sign, raises
    ZeroDivisionError; the result is a float. *)
Definition truediv (a : pyval) (y : float) : outcome float :=
  match as_float a with
  | Ok x =>
      if PrimFloat.eqb y 0 then Raise ZeroDivisionError
      else Ok (PrimFloat.div x y)
  | Raise e => Raise e
  end.

(** [v[i]] for a literal index [i >= 0]. *)
Definition getitem (v : pyval) (i : nat) : outcome pyval :=
  match v with
  | PList l =>
      match l !! i with Some x => Ok x | None => Raise IndexError end
  | PStr s =>
      match String.get i s with
      | Some c => Ok (PStr (String c EmptyString))
      | None => Raise IndexError
      end
  | _ => Raise TypeError
  end.

End Py.

(** ** State and exceptions

    [M S A] is a computation over a mutable state [S] that returns an [A] or
    raises; the state it leaves behind is kept in both cases. *)

Definition M (S A : Type) : Type := S → S * outcome A.

Definition ret {S A} (a : A) : M S A := λ s, (s, Ok a).

Definition bind {S A B} (c : M S A) (k : A → M S B) : M S B :=
  λ s, match c s with
       | (s', Ok a) => k a s'
       | (s', Raise e) => (s', Raise e)
       end.

Definition raise {S A} (e : exn) : M S A := λ s, (s, Raise e).

Definition lift {S A} (r : outcome A) : M S A := λ s, (s, r).

Definition gets {S A} (f : S → A) : M S A := λ s, (s, Ok (f s)).

Definition modify {S} (f : S → S) : M S unit := λ s, (f s, Ok tt).

Definition when {S} (b : bool) (c : M S unit) : M S unit :=
  if b then c else ret tt.

Declare Scope py_scope.
Delimit Scope py_scope with py.
Notation "'let!' x ':=' c 'in' k" := (bind c (λ x, k))
  (at level 10, x name, c at level 100, k at level 200) : py_scope.
Notation "c '>>' k" := (bind c (λ _, k))
  (at level 100, k at level 200, right associativity) : py_scope.

(** ** Metadata records ([slitflow.info.Info]) *)

(** One parameter entry: its value, its unit (or type tag) and its
    description. *)
Record param_entry : Type := ParamEntry {
  p_value : pyval;
  p_unit : pyval;
  p_description : string
}.

Abbreviation params := (gmap string param_entry).
Abbreviation dict := (gmap string pyval).

(** The metadata object of a data class: the parameters of the required
    data [reqs[0]] and its own parameters. *)
Record Info : Type := MkInfo {
  req0_param : params;
  param : params
}.

(** The unit and the description under which the metadata class files the
    split depth.  The class is not part of the sources at hand and nothing
    states them: they are parameters of the development. *)
Class InfoConstants : Type := {
  split_depth_unit : pyval;
  split_depth_description : string
}.

Module InfoM.

(** Modelled from the spec: [Info.copy_req] is not part of the sources at
    hand.  "Copy all inherited parameters verbatim": every parameter of
    [reqs[0]] becomes a parameter of this record, with its entry
    unchanged. *)
Definition copy_req (i : Info) : Info :=
  {| req0_param := req0_param i;
     param := req0_param i ∪ param i |}.

(** Modelled from the spec: [Info.add_param] is not part of the sources at
    hand.  "Insert" a parameter with its value, unit or type tag, and
    description. *)
Definition add_param (name : string) (value tag : pyval)
    (description : string) (i : Info) : Info :=
  {| req0_param := req0_param i;
     param := <[name := ParamEntry value tag description]> (param i) |}.

(** Modelled from the spec: [Info.get_param_value] is not part of the
    sources at hand.  Parameters are optional and "may be absent"; an
    absent parameter reads as [None]. *)
Definition get_param_value (name : string) (i : Info) : pyval :=
  match param i !! name with
  | Some e => p_value e
  | None => PNone
  end.

(** Modelled from the spec: [Info.set_split_depth] is not part of the
    sources at hand.  The split depth is "an integer parameter carried in
    metadata", which this core "only sets": the parameter ["split_depth"]
    gets the given value. *)
Definition set_split_depth {C : InfoConstants} (depth : pyval) (i : Info)
    : Info :=
  add_param "split_depth" depth split_depth_unit split_depth_description i.

End InfoM.

(** ** [ToTiff.set_info] *)

(** The objects [set_info] can reach: the metadata of [self], the dictionary
    stored in the function object as the default of [param] (created once,
    when the [def] is executed), and the dictionary object of the caller. *)
Record World : Type := MkWorld {
  self_info : Info;
  fn_default : dict;
  caller_param : dict
}.

(** How [set_info] is called: [self.set_info()] binds [param] to the default
    object, [self.set_info(d)] binds it to the caller's object.  In both
    cases [param] is a reference, not a copy. *)
Inductive param_arg : Type := Omitted | Supplied.

Module ToTiff.

Definition deref (a : param_arg) (w : World) : dict :=
  match a with Omitted => fn_default w | Supplied => caller_param w end.

Definition assign (a : param_arg) (d : dict) (w : World) : World :=
  match a with
  | Omitted =>
      {| self_info := self_info w; fn_default := d;
         caller_param := caller_param w |}
  | Supplied =>
      {| self_info := self_info w; fn_default := fn_default w;
         caller_param := d |}
  end.

Definition on_info (f : Info → Info) (w : World) : World :=
  {| self_info := f (self_info w); fn_default := fn_default w;
     caller_param := caller_param w |}.

(** [k in param] *)
Definition contains (a : param_arg) (k : string) : M World bool :=
  gets (λ w, bool_decide (is_Some (deref a w !! k))).

(** [param[k]] *)
Definition item (a : param_arg) (k : string) : M World pyval :=
  λ w, match deref a w !! k with
       | Some v => (w, Ok v)
       | None => (w, Raise (KeyError k))
       end.

(** [param[k] = v] *)
Definition setitem (a : param_arg) (k : string) (v : pyval) : M World unit :=
  modify (λ w, assign a (<[k := v]> (deref a w)) w).

Definition copy_req : M World unit := modify (on_info InfoM.copy_req).

Definition add_param (name : string) (value tag : pyval)
    (description : string) : M World unit :=
  modify (on_info (InfoM.add_param name value tag description)).

Definition get_param_value (name : string) : M World pyval :=
  gets (λ w, InfoM.get_param_value name (self_info w)).

Definition set_split_depth {C : InfoConstants} (depth : pyval) : M World unit :=
  modify (on_info (InfoM.set_split_depth depth)).

(** The literal [2.54]. *)
Definition cm_per_inch : float := 2.54%float.

Definition scalebar_description : string :=
  "[length, left, bottom , line_width, line_color] of the scale                 bar".

Open Scope py_scope.

(** Lines 50-53: default and record the resolution. *)
Definition add_dpi (a : param_arg) : M World unit :=
  let! has_dpi := contains a "dpi" in
  when (negb has_dpi) (setitem a "dpi" (PInt 400)) >>
  let! dpi := item a "dpi" in
  add_param "dpi" dpi (PStr "int") "Dot per inch of figure image".

(** Lines 56-64: the pitch, from the x axis only. *)
Definition calibrate (a : param_arg) : M World unit :=
  let! limit := get_param_value "limit" in
  let! size := get_param_value "size" in
  let! length_unit := get_param_value "length_unit" in
  when (Py.truthy limit && Py.truthy size && Py.truthy length_unit)
    (let! size0 := lift (Py.getitem size 0) in
     let! inches := lift (Py.truediv size0 cm_per_inch) in
     let! dpi := item a "dpi" in
     let! pixel := lift (Py.mul_float inches dpi) in
     let! limit0 := lift (Py.getitem limit 0) in
     when (Py.is_not_none limit0)
       (let! limit1 := lift (Py.getitem limit 1) in
        let! limit0 := lift (Py.getitem limit 0) in
        let! extent := lift (Py.sub limit1 limit0) in
        let! pitch := lift (Py.truediv extent pixel) in
        add_param "pitch" (PFloat pitch) length_unit "Pixel size of figure")).

(** Lines 65-69: record the scale bar when one is given. *)
Definition add_scalebar (a : param_arg) : M World unit :=
  let! has_scalebar := contains a "scalebar" in
  when has_scalebar
    (let! scalebar := item a "scalebar" in
     add_param "scalebar" scalebar (PStr "list") scalebar_description).

Definition set_info {C : InfoConstants} (a : param_arg) : M World unit :=
  copy_req >>
  add_dpi a >>
  calibrate a >>
  add_scalebar a >>
  let! depth := item a "split_depth" in
  set_split_depth depth.

Close Scope py_scope.

End ToTiff.

(** ** Figures, axes and the canvas (matplotlib objects) *)

(** A line artist: the arguments [Axes.plot] was given for it. *)
Record Line2D : Type := MkLine {
  xdata : list pyval;
  ydata : list pyval;
  linewidth : pyval;
  color : pyval
}.

Record Axes : Type := MkAxes { lines : list Line2D }.

(** The canvas after a draw: the pixel size it reports as (width, height)
    and its RGB byte buffer, row-major, three bytes per pixel. *)
Record Canvas : Type := MkCanvas {
  width_height : nat * nat;
  buffer_rgb : list Byte.byte
}.

Record Figure : Type := MkFigure {
  axes : list Axes;
  dpi : pyval;
  canvas : Canvas
}.

(** ** Arrays (numpy) *)

Module Np.

(** [k] consecutive blocks of [n] elements. *)
Fixpoint chunks {A} (k n : nat) (l : list A) : list (list A) :=
  match k with
  | O => []
  | S k' => take n l :: chunks k' n (drop n l)
  end.

(** [a.reshape((h, w, 3))] of a one-dimensional array: ValueError unless
    the array has exactly [h * w * 3] elements. *)
Definition reshape3 {A} (h w : nat) (a : list A)
    : outcome (list (list (list A))) :=
  if Nat.eqb (length a) (h * w * 3)
  then Ok (chunks w 3 <$> chunks h (w * 3) a)
  else Raise ValueError.

(** [a[:, :, c]]: component [c] of every pixel (every pixel of a reshaped
    array has three). *)
Definition plane {A} (c : nat) (a : list (list (list A)))
    : list (list A) :=
  (λ row : list (list A), omap (λ px : list A, px !! c) row) <$> a.

(** [np.flipud(a)]: reverse the order of the rows. *)
Definition flipud {A} (a : list (list A)) : list (list A) := reverse a.

(** The elements of a flat list of numbers, as floats. *)
Fixpoint float_items (l : list pyval) : outcome (list float) :=
  match l with
  | [] => Ok []
  | v :: l' =>
      match Py.as_float v with
      | Ok x =>
          match float_items l' with
          | Ok xs => Ok (x :: xs)
          | Raise e => Raise e
          end
      | Raise e => Raise e
      end
  end.

(** [np.array(v) / n] for [v] a number or a flat list of numbers (the
    documented shape of a colour): a float array, each element divided by
    the float [n].  Anything else is outside the documented domain and is
    rejected here. *)
Definition array_div (v : pyval) (n : float) : outcome pyval :=
  match v with
  | PList l =>
      match float_items l with
      | Ok xs => Ok (PList ((λ x, PFloat (PrimFloat.div x n)) <$> xs))
      | Raise e => Raise e
      end
  | _ =>
      match Py.as_float v with
      | Ok x => Ok (PFloat (PrimFloat.div x n))
      | Raise e => Raise e
      end
  end.

End Np.

(** ** [get_stack] and [ToTiff.process] *)

Section Rasterize.

(** The rendering backend: what a full redraw of the given axes at the
    given resolution leaves on the canvas. *)
Variable renderer : list Axes → pyval → Canvas.

(** The checks [Axes.plot] makes on its arguments (x data, y data, line
    width, colour) before it adds the line: it accepts them, or raises and
    adds nothing. *)
Variable plot_accepts : list pyval → list pyval → pyval → pyval → outcome unit.

Definition set_dpi (d : pyval) : M Figure unit :=
  modify (λ f, {| axes := axes f; dpi := d; canvas := canvas f |}).

Definition canvas_draw : M Figure unit :=
  modify (λ f, {| axes := axes f; dpi := dpi f;
                  canvas := renderer (axes f) (dpi f) |}).

Definition tostring_rgb : M Figure (list Byte.byte) :=
  gets (λ f, buffer_rgb (canvas f)).

Definition get_width_height : M Figure (nat * nat) :=
  gets (λ f, width_height (canvas f)).

(** [fig.axes[0].plot(xs, ys, linewidth=lw, color=c)] *)
Definition axes0_plot (xs ys : list pyval) (lw c : pyval) : M Figure unit :=
  λ f, match axes f with
       | [] => (f, Raise IndexError)
       | ax :: rest =>
           match plot_accepts xs ys lw c with
           | Ok _ =>
               ({| axes := {| lines := lines ax ++ [MkLine xs ys lw c] |}
                           :: rest;
                   dpi := dpi f; canvas := canvas f |}, Ok tt)
           | Raise e => (f, Raise e)
           end
       end.

(** [fig.axes[0]], evaluated before the arguments of [plot]. *)
Definition axes0 : M Figure unit :=
  λ f, match axes f with
       | [] => (f, Raise IndexError)
       | _ :: _ => (f, Ok tt)
       end.

Open Scope py_scope.

Definition get_stack (d : pyval) : M Figure (list (list (list Byte.byte))) :=
  set_dpi d >>
  canvas_draw >>
  let! buf := tostring_rgb in
  let! wh := get_width_height in
  let! fig_rgb := lift (Np.reshape3 (snd wh) (fst wh) buf) in
  ret [Np.flipud (Np.plane 0 fig_rgb);
       Np.flipud (Np.plane 1 fig_rgb);
       Np.flipud (Np.plane 2 fig_rgb)].

(** [d[k]] for a dictionary that is only read. *)
Definition dict_item {S} (d : dict) (k : string) : M S pyval :=
  lift (match d !! k with Some v => Ok v | None => Raise (KeyError k) end).

(** [d[k][i]] *)
Definition dict_item_at {S} (d : dict) (k : string) (i : nat) : M S pyval :=
  let! v := dict_item d k in lift (Py.getitem v i).

(** Lines 93-101: the scale bar, drawn on the first axes. *)
Definition draw_scalebar (prm : dict) : M Figure unit :=
  when (bool_decide (is_Some (prm !! "scalebar")))
    (let! limit1 := dict_item_at prm "limit" 1 in
     let! limit0 := dict_item_at prm "limit" 0 in
     let! width := lift (Py.sub limit1 limit0) in
     let! limit3 := dict_item_at prm "limit" 3 in
     let! limit2 := dict_item_at prm "limit" 2 in
     let! height := lift (Py.sub limit3 limit2) in
     let! rel_left := dict_item_at prm "scalebar" 1 in
     let! wl := lift (Py.mul width rel_left) in
     let! limit0 := dict_item_at prm "limit" 0 in
     let! left := lift (Py.add wl limit0) in
     let! rel_bottom := dict_item_at prm "scalebar" 2 in
     let! hb := lift (Py.mul height rel_bottom) in
     let! limit2 := dict_item_at prm "limit" 2 in
     let! bottom := lift (Py.add hb limit2) in
     axes0 >>
     let! len := dict_item_at prm "scalebar" 0 in
     let! right := lift (Py.add left len) in
     let! lw := dict_item_at prm "scalebar" 3 in
     let! rgb := dict_item_at prm "scalebar" 4 in
     let! c := lift (Np.array_div rgb 255) in
     axes0_plot [left; right] [bottom; bottom] lw c).

Definition process (prm : dict) : M Figure (list (list (list Byte.byte))) :=
  draw_scalebar prm >>
  let! d := dict_item prm "dpi" in
  get_stack d.

Close Scope py_scope.

End Rasterize.

(** ** [Figure.save_data] *)

(** The process-wide state a save touches: the files written so far and the
    artists of pyplot's current figure. *)
Record Process : Type := MkProcess {
  files : gmap string Figure;
  plt_current : list Axes
}.

Section FigureData.

(** [Pickle.save_data], the method of the base class: it is not part of
    the sources at hand and is taken as a parameter. *)
Variable Pickle_save_data : Figure → string → M Process unit.

(** [plt.clf()]: clear the current figure. *)
Definition plt_clf : M Process unit :=
  modify (λ p, {| files := files p; plt_current := [] |}).

Open Scope py_scope.

Definition save_data (data : Figure) (path : string) : M Process unit :=
  Pickle_save_data data path >>
  plt_clf.

Close Scope py_scope.

End FigureData.

(** ** Vocabulary of the statements *)

(** The resolution [set_info] works with: the caller's, or 400. *)
Definition dpi_of (d : dict) : pyval := default (PInt 400) (d !! "dpi").

(** The metadata as [set_info] sees it at lines 56-58: after the copy of the
    inherited parameters and the insertion of [dpi]. *)
Definition visible_info (a : param_arg) (w : World) : Info :=
  InfoM.add_param "dpi" (dpi_of (ToTiff.deref a w)) (PStr "int")
    "Dot per inch of figure image" (InfoM.copy_req (self_info w)).

(** The objects as the calibration block finds them. *)
Definition prepared (a : param_arg) (w : World) : World :=
  ToTiff.on_info (λ _, visible_info a w)
    (ToTiff.assign a
       (<["dpi" := dpi_of (ToTiff.deref a w)]> (ToTiff.deref a w)) w).

(** Lines 65-70 of [set_info]: what follows the calibration block. *)
Definition finish {C : InfoConstants} (a : param_arg) : M World unit :=
  bind (ToTiff.add_scalebar a) (λ _,
  bind (ToTiff.item a "split_depth") (λ depth,
  ToTiff.set_split_depth depth)).

(** [limit[0] is not None], for a [limit] that has an item 0. *)
Definition limit0_present (limit : pyval) : bool :=
  match Py.getitem limit 0 with
  | Ok v => Py.is_not_none v
  | Raise _ => false
  end.

(** The guard of the calibration: lines 59 and 61 taken together. *)
Definition calibration_complete (i : Info) : bool :=
  Py.truthy (InfoM.get_param_value "limit" i)
  && Py.truthy (InfoM.get_param_value "size" i)
  && Py.truthy (InfoM.get_param_value "length_unit" i)
  && limit0_present (InfoM.get_param_value "limit" i).

(** The pixel extent of line 60, [size0 / 2.54 * resolution], in floats. *)
Definition pixel_extent (size0 resolution : float) : float :=
  PrimFloat.mul (PrimFloat.div size0 ToTiff.cm_per_inch) resolution.

(** The figure [f], whose axes are [ax :: rest], after one more line has
    been plotted on [ax]. *)
Definition with_line (f : Figure) (ax : Axes) (rest : list Axes)
    (line : Line2D) : Figure :=
  {| axes := {| lines := lines ax ++ [line] |} :: rest;
     dpi := dpi f; canvas := canvas f |}.

(** The state and the outcome of a run. *)
Definition state_after {S A} (c : M S A) (s : S) : S := fst (c s).
Definition outcome_of {S A} (c : M S A) (s : S) : outcome A := snd (c s).

(** ** Sample inputs *)

(** A choice of the two constants of the metadata class, for the worked
    instances. *)
Definition sample_constants : InfoConstants :=
  {| split_depth_unit := PStr "num";
     split_depth_description := "File split depth" |}.

(** The parameters a figure stage hands down: axis limits, the physical size
    in centimetres and the length unit. *)
Definition figure_params (limit size length_unit : pyval) : params :=
  <["limit" := ParamEntry limit (PStr "list") "Axis limits"]>
  (<["size" := ParamEntry size (PStr "cm") "Figure size"]>
  (<["length_unit" := ParamEntry length_unit (PStr "str") "Unit of length"]> ∅)).

(** A fresh [ToTiff] object whose required data carries [inh], an untouched
    default dictionary, and the caller's dictionary [prm]. *)
Definition fresh_world (inh : params) (prm : dict) : World :=
  {| self_info := {| req0_param := inh; param := ∅ |};
     fn_default := ∅;
     caller_param := prm |}.

Definition limit_0_10_0_5 : pyval := PList [PInt 0; PInt 10; PInt 0; PInt 5].

Definition size_cm (w h : float) : pyval := PList [PFloat w; PFloat h].

(** A backend that draws nothing: an empty canvas at every resolution. *)
Definition blank_renderer (_ : list Axes) (_ : pyval) : Canvas :=
  {| width_height := (0, 0)%nat; buffer_rgb := [] |}.

(** A backend with a canvas of 2 by 3 pixels (width 2, height 3) whose
    bytes count up from 0 in buffer order. *)
Definition counting_renderer (_ : list Axes) (_ : pyval) : Canvas :=
  {| width_height := (2, 3)%nat;
     buffer_rgb := omap Byte.of_nat (seq 0 18) |}.

(** A [plot] that accepts whatever it is given. *)
Definition lenient_plot (_ _ : list pyval) (_ _ : pyval) : outcome unit :=
  Ok tt.

Definition empty_figure : Figure :=
  {| axes := [ {| lines := [] |} ]; dpi := PInt 100;
     canvas := {| width_height := (0, 0)%nat; buffer_rgb := [] |} |}.

(** A store that writes the figure under its path and refuses the empty
    path. *)
Definition sample_save (data : Figure) (path : string) : M Process unit :=
  if String.eqb path ""
  then raise OSError
  else modify (λ p, {| files := <[path := data]> (files p);
                       plt_current := plt_current p |}).

Definition busy_process : Process :=
  {| files := ∅; plt_current := [ {| lines := [] |} ] |}.

(** * Properties *)

(** ** Running computations *)

Lemma bind_ok {S A B} (c : M S A) (k : A → M S B) s s' a :
  c s = (s', Ok a) → bind c k s = k a s'.
Proof. intros H. unfold bind. now rewrite H. Qed.

Lemma bind_raise {S A B} (c : M S A) (k : A → M S B) s s' e :
  c s = (s', Raise e) → bind c k s = (s', Raise e).
Proof. intros H. unfold bind. now rewrite H. Qed.


Lemma run_eq {S A} (c : M S A) s s' r :
  state_after c s = s' → outcome_of c s = r → c s = (s', r).
Proof. unfold state_after, outcome_of. destruct (c s). cbn. congruence. Qed.

Lemma deref_assign a d w : ToTiff.deref a (ToTiff.assign a d w) = d.
Proof. now destruct a. Qed.

Lemma deref_on_info a f w : ToTiff.deref a (ToTiff.on_info f w) = ToTiff.deref a w.
Proof. now destruct a. Qed.

Lemma assign_deref a w : ToTiff.assign a (ToTiff.deref a w) w = w.
Proof. now destruct a, w. Qed.

Lemma union_lookup_absorb {V} (m1 m2 m2' : gmap string V) k :
  m2' !! k = (m1 ∪ m2) !! k → (m1 ∪ m2') !! k = (m1 ∪ m2) !! k.
Proof.
  intros H. rewrite (lookup_union m1 m2'), H, !lookup_union.
  destruct (m1 !! k), (m2 !! k); reflexivity.
Qed.

Lemma World_eq (w w' : World) :
  req0_param (self_info w) = req0_param (self_info w') →
  param (self_info w) = param (self_info w') →
  (∀ b, ToTiff.deref b w = ToTiff.deref b w') →
  w = w'.
Proof.
  destruct w as [[r p] d c], w' as [[r' p'] d' c']. cbn.
  intros -> -> H.
  pose proof (H Omitted) as Ho. pose proof (H Supplied) as Hs. cbn in Ho, Hs.
  now subst.
Qed.

(** ** The resolution block (lines 49-53) *)

Lemma add_dpi_run a w :
  ToTiff.add_dpi a w =
  (ToTiff.on_info
     (InfoM.add_param "dpi" (dpi_of (ToTiff.deref a w)) (PStr "int")
        "Dot per inch of figure image")
     (ToTiff.assign a (<["dpi" := dpi_of (ToTiff.deref a w)]> (ToTiff.deref a w)) w),
   Ok tt).
Proof.
  unfold ToTiff.add_dpi, ToTiff.contains, ToTiff.item, ToTiff.setitem,
    ToTiff.add_param, bind, gets, modify, when, ret, dpi_of.
  destruct (ToTiff.deref a w !! "dpi") as [v|] eqn:Hd; simpl.
  - rewrite Hd. now rewrite insert_id, assign_deref.
  - now rewrite deref_assign, lookup_insert_eq.
Qed.

Lemma prepared_dpi a w :
  ToTiff.deref a (prepared a w) !! "dpi" = Some (dpi_of (ToTiff.deref a w)).
Proof.
  unfold prepared. now rewrite deref_on_info, deref_assign, lookup_insert_eq.
Qed.

Lemma prepared_info a w : self_info (prepared a w) = visible_info a w.
Proof. now destruct a. Qed.

Lemma prepared_deref a w :
  ToTiff.deref a (prepared a w) =
  <["dpi" := dpi_of (ToTiff.deref a w)]> (ToTiff.deref a w).
Proof. unfold prepared. now rewrite deref_on_info, deref_assign. Qed.

Lemma prepared_key a w k :
  k ≠ "dpi" → ToTiff.deref a (prepared a w) !! k = ToTiff.deref a w !! k.
Proof. intros Hk. rewrite prepared_deref. now rewrite lookup_insert_ne. Qed.

Lemma visible_info_lookup a w k :
  k ≠ "dpi" →
  param (visible_info a w) !! k
  = (req0_param (self_info w) ∪ param (self_info w)) !! k.
Proof. intros Hk. unfold visible_info. simpl. now rewrite lookup_insert_ne. Qed.

(** ** The calibration block (lines 56-64) *)

Ltac unfold_calibrate :=
  unfold ToTiff.calibrate, ToTiff.get_param_value, ToTiff.item,
    ToTiff.add_param, bind, gets, modify, lift, when, ret.

(** Walk through the block one statement at a time; every statement that
    raises leaves a goal that [tac] must close. *)
Ltac walk_calibrate a w tac :=
  unfold_calibrate; simpl;
  destruct (Py.truthy (InfoM.get_param_value "limit" (self_info w))); simpl;
    [|tac];
  destruct (Py.truthy (InfoM.get_param_value "size" (self_info w))); simpl;
    [|tac];
  destruct (Py.truthy (InfoM.get_param_value "length_unit" (self_info w)));
    simpl; [|tac];
  destruct (Py.getitem (InfoM.get_param_value "size" (self_info w)) 0);
    simpl; [|tac];
  destruct (Py.truediv _ ToTiff.cm_per_inch); simpl; [|tac];
  destruct (ToTiff.deref a w !! "dpi"); simpl; [|tac];
  destruct (Py.mul_float _ _); simpl; [|tac];
  let l0 := fresh "l0" in
  destruct (Py.getitem (InfoM.get_param_value "limit" (self_info w)) 0)
    as [l0|]; simpl; [|tac];
  destruct (Py.is_not_none l0); simpl; [|tac];
  destruct (Py.getitem _ 1); simpl; [|tac];
  destruct (Py.sub _ _); simpl; [|tac];
  destruct (Py.truediv _ _); simpl; [|tac].

(** The block either leaves every object as it found it, or returns after
    inserting one [pitch] entry tagged with the inherited length unit. *)
Lemma calibrate_cases a w :
  (∃ r, ToTiff.calibrate a w = (w, r)) ∨
  (∃ v, ToTiff.calibrate a w =
          (ToTiff.on_info
             (InfoM.add_param "pitch" v
                (InfoM.get_param_value "length_unit" (self_info w))
                "Pixel size of figure") w, Ok tt)).
Proof.
  walk_calibrate a w eauto. eauto.
Qed.

Lemma calibrate_skip a w :
  Py.truthy (InfoM.get_param_value "limit" (self_info w))
  && Py.truthy (InfoM.get_param_value "size" (self_info w))
  && Py.truthy (InfoM.get_param_value "length_unit" (self_info w)) = false →
  ToTiff.calibrate a w = (w, Ok tt).
Proof. intros H. unfold_calibrate. simpl. now rewrite H. Qed.

(** When the block returns, it has inserted [pitch] exactly when its two
    guards held. *)
Lemma calibrate_ok a w w' :
  ToTiff.calibrate a w = (w', Ok tt) →
  if calibration_complete (self_info w)
  then ∃ v, w' = ToTiff.on_info
                   (InfoM.add_param "pitch" v
                      (InfoM.get_param_value "length_unit" (self_info w))
                      "Pixel size of figure") w
  else w' = w.
Proof.
  unfold calibration_complete, limit0_present.
  walk_calibrate a w congruence.
  intros [= <-]. eauto.
Qed.


Lemma cm_per_inch_nonzero : PrimFloat.eqb ToTiff.cm_per_inch 0 = false.
Proof. reflexivity. Qed.

Lemma truediv_cm s0 fs :
  Py.as_float s0 = Ok fs →
  Py.truediv s0 ToTiff.cm_per_inch = Ok (PrimFloat.div fs ToTiff.cm_per_inch).
Proof.
  intros H. unfold Py.truediv. now rewrite H, cm_per_inch_nonzero.
Qed.

Lemma truediv_cm_inv s0 x :
  Py.truediv s0 ToTiff.cm_per_inch = Ok x →
  ∃ fs, Py.as_float s0 = Ok fs ∧ x = PrimFloat.div fs ToTiff.cm_per_inch.
Proof.
  unfold Py.truediv. rewrite cm_per_inch_nonzero.
  destruct (Py.as_float s0) as [fs|]; [|discriminate].
  intros [= <-]. eauto.
Qed.

(** The pixel extent of line 60 when both of its operands convert. *)
Lemma pixel_run s0 d fs fd :
  Py.as_float s0 = Ok fs → Py.as_float d = Ok fd →
  ∃ inches, Py.truediv s0 ToTiff.cm_per_inch = Ok inches
            ∧ Py.mul_float inches d = Ok (pixel_extent fs fd).
Proof.
  intros Hs Hd. exists (PrimFloat.div fs ToTiff.cm_per_inch).
  split; [now apply truediv_cm|].
  unfold Py.mul_float. now rewrite Hd.
Qed.

(** With operands that convert, the block divides the extent of the x axis
    by the pixel extent: a zero pixel extent makes that division raise, any
    other yields the quotient, computed in floats in the order of the
    source. *)
Lemma calibrate_floats a w l0 l1 lrest s0 srest d extent fs fd fe :
  InfoM.get_param_value "limit" (self_info w) = PList (l0 :: l1 :: lrest) →
  Py.is_not_none l0 = true →
  InfoM.get_param_value "size" (self_info w) = PList (s0 :: srest) →
  Py.truthy (InfoM.get_param_value "length_unit" (self_info w)) = true →
  ToTiff.deref a w !! "dpi" = Some d →
  Py.as_float s0 = Ok fs → Py.as_float d = Ok fd →
  Py.sub l1 l0 = Ok extent → Py.as_float extent = Ok fe →
  ToTiff.calibrate a w =
  if PrimFloat.eqb (pixel_extent fs fd) 0
  then (w, Raise ZeroDivisionError)
  else (ToTiff.on_info
          (InfoM.add_param "pitch"
             (PFloat (PrimFloat.div fe (pixel_extent fs fd)))
             (InfoM.get_param_value "length_unit" (self_info w))
             "Pixel size of figure") w, Ok tt).
Proof.
  intros Hl Hnn Hs Hu Hd Hfs Hfd Hsub Hfe.
  destruct (pixel_run _ _ _ _ Hfs Hfd) as (inches & Hin & Hpx).
  unfold_calibrate. rewrite Hl, Hs, Hu.
  cbn [Py.truthy length Nat.eqb negb andb Py.getitem lookup list_lookup].
  rewrite Hin, Hd, Hpx, Hnn, Hsub.
  unfold Py.truediv. rewrite Hfe.
  now destruct (PrimFloat.eqb (pixel_extent fs fd) 0).
Qed.

(** With [None] as [limit[0]] the block evaluates the pixel extent and then
    returns without a [pitch]. *)
Lemma calibrate_limit0_none a w lrest s0 srest d fs fd :
  InfoM.get_param_value "limit" (self_info w) = PList (PNone :: lrest) →
  InfoM.get_param_value "size" (self_info w) = PList (s0 :: srest) →
  Py.truthy (InfoM.get_param_value "length_unit" (self_info w)) = true →
  ToTiff.deref a w !! "dpi" = Some d →
  Py.as_float s0 = Ok fs → Py.as_float d = Ok fd →
  ToTiff.calibrate a w = (w, Ok tt).
Proof.
  intros Hl Hs Hu Hd Hfs Hfd.
  destruct (pixel_run _ _ _ _ Hfs Hfd) as (inches & Hin & Hpx).
  unfold_calibrate. rewrite Hl, Hs, Hu.
  cbn [Py.truthy length Nat.eqb negb andb Py.getitem lookup list_lookup].
  now rewrite Hin, Hd, Hpx.
Qed.

Lemma calibrate_state_frame a w :
  let w' := state_after (ToTiff.calibrate a) w in
  (∀ b, ToTiff.deref b w' = ToTiff.deref b w) ∧
  (∀ k, k ≠ "pitch" → param (self_info w') !! k = param (self_info w) !! k) ∧
  req0_param (self_info w') = req0_param (self_info w).
Proof.
  unfold state_after.
  destruct (calibrate_cases a w) as [[r ->]|[v ->]]; cbn [fst].
  - auto.
  - split; [|split].
    + intros b. now rewrite deref_on_info.
    + intros k Hk. simpl. now rewrite lookup_insert_ne.
    + reflexivity.
Qed.

(** ** The closing block (lines 65-70) and [set_info] as a whole *)

Section SetInfo.
Context {C : InfoConstants}.

Lemma set_info_run a w :
  ToTiff.set_info a w =
  match ToTiff.calibrate a (prepared a w) with
  | (w', Ok _) => finish a w'
  | (w', Raise e) => (w', Raise e)
  end.
Proof.
  unfold ToTiff.set_info.
  erewrite bind_ok by reflexivity.
  erewrite bind_ok by apply add_dpi_run.
  unfold bind at 1. unfold prepared, visible_info.
  rewrite deref_on_info.
  replace (ToTiff.on_info _ (ToTiff.assign a _ (ToTiff.on_info _ w)))
    with (ToTiff.on_info
            (λ _, InfoM.add_param "dpi" (dpi_of (ToTiff.deref a w)) (PStr "int")
                    "Dot per inch of figure image" (InfoM.copy_req (self_info w)))
            (ToTiff.assign a
               (<["dpi":=dpi_of (ToTiff.deref a w)]> (ToTiff.deref a w)) w))
    by now destruct a.
  destruct (ToTiff.calibrate a _) as [w' [[]|e]]; reflexivity.
Qed.

Lemma finish_run a w :
  finish a w =
  let w' := match ToTiff.deref a w !! "scalebar" with
            | Some v => ToTiff.on_info
                          (InfoM.add_param "scalebar" v (PStr "list")
                             ToTiff.scalebar_description) w
            | None => w
            end in
  match ToTiff.deref a w !! "split_depth" with
  | Some v => (ToTiff.on_info (InfoM.set_split_depth v) w', Ok tt)
  | None => (w', Raise (KeyError "split_depth"))
  end.
Proof.
  unfold finish, ToTiff.add_scalebar, ToTiff.contains, ToTiff.item,
    ToTiff.add_param, ToTiff.set_split_depth, bind, gets, modify, when, ret.
  destruct (ToTiff.deref a w !! "scalebar") as [v|] eqn:Hs; simpl.
  - rewrite Hs, deref_on_info.
    now destruct (ToTiff.deref a w !! "split_depth").
  - now destruct (ToTiff.deref a w !! "split_depth").
Qed.

Lemma finish_outcome a w :
  outcome_of (finish a) w =
  match ToTiff.deref a w !! "split_depth" with
  | Some _ => Ok tt
  | None => Raise (KeyError "split_depth")
  end.
Proof.
  unfold outcome_of. rewrite finish_run. cbn zeta.
  now destruct (ToTiff.deref a w !! "split_depth").
Qed.

Lemma finish_deref a b w :
  ToTiff.deref b (state_after (finish a) w) = ToTiff.deref b w.
Proof.
  unfold state_after. rewrite finish_run. simpl.
  destruct (ToTiff.deref a w !! "scalebar"), (ToTiff.deref a w !! "split_depth");
    simpl; now rewrite ?deref_on_info.
Qed.

Lemma finish_req0 a w :
  req0_param (self_info (state_after (finish a) w)) = req0_param (self_info w).
Proof.
  unfold state_after. rewrite finish_run. simpl.
  now destruct (ToTiff.deref a w !! "scalebar"),
    (ToTiff.deref a w !! "split_depth").
Qed.

Lemma finish_param a w k :
  k ≠ "scalebar" → k ≠ "split_depth" →
  param (self_info (state_after (finish a) w)) !! k = param (self_info w) !! k.
Proof.
  intros Hk Hd. unfold state_after. rewrite finish_run. simpl.
  destruct (ToTiff.deref a w !! "scalebar"), (ToTiff.deref a w !! "split_depth");
    simpl; unfold InfoM.set_split_depth, InfoM.add_param; simpl;
    now rewrite ?lookup_insert_ne.
Qed.

(** The closing block leaves under [split_depth] the caller's value, with
    the unit and the description of the metadata class; without the key it
    leaves the entry it found. *)
Lemma finish_split_depth a w :
  param (self_info (state_after (finish a) w)) !! "split_depth" =
  match ToTiff.deref a w !! "split_depth" with
  | Some v => Some (ParamEntry v split_depth_unit split_depth_description)
  | None => param (self_info w) !! "split_depth"
  end.
Proof.
  unfold state_after. rewrite finish_run. simpl.
  destruct (ToTiff.deref a w !! "scalebar"), (ToTiff.deref a w !! "split_depth");
    simpl; unfold InfoM.set_split_depth, InfoM.add_param; simpl;
    now rewrite ?lookup_insert_eq, ?lookup_insert_ne.
Qed.

(** The closing block leaves under [scalebar] the caller's scale bar, or
    the entry it found when the caller gave none. *)
Lemma finish_scalebar a w :
  param (self_info (state_after (finish a) w)) !! "scalebar" =
  match ToTiff.deref a w !! "scalebar" with
  | Some v => Some (ParamEntry v (PStr "list") ToTiff.scalebar_description)
  | None => param (self_info w) !! "scalebar"
  end.
Proof.
  unfold state_after. rewrite finish_run. simpl.
  destruct (ToTiff.deref a w !! "scalebar"), (ToTiff.deref a w !! "split_depth");
    simpl; unfold InfoM.set_split_depth, InfoM.add_param; simpl;
    rewrite ?lookup_insert_ne by done; now rewrite ?lookup_insert_eq.
Qed.

(** Apart from [pitch], [scalebar] and [split_depth], the parameters that
    [set_info] leaves are those it saw after the copy and the insertion of
    [dpi]. *)
Lemma set_info_param_other a w k :
  k ≠ "pitch" → k ≠ "scalebar" → k ≠ "split_depth" →
  param (self_info (state_after (ToTiff.set_info a) w)) !! k
  = param (visible_info a w) !! k.
Proof.
  intros Hp Hs Hd. unfold state_after. rewrite set_info_run.
  destruct (calibrate_cases a (prepared a w)) as [[r ->]|[v ->]].
  - destruct r as [[]|e]; [|cbn [fst]; now rewrite prepared_info].
    fold (state_after (finish a) (prepared a w)).
    now rewrite finish_param, prepared_info.
  - fold (state_after (finish a)
            (ToTiff.on_info
               (InfoM.add_param "pitch" v
                  (InfoM.get_param_value "length_unit" (self_info (prepared a w)))
                  "Pixel size of figure") (prepared a w))).
    rewrite finish_param by assumption.
    cbn [ToTiff.on_info self_info InfoM.add_param param].
    rewrite lookup_insert_ne by congruence.
    now rewrite prepared_info.
Qed.

(** Neither dictionary is touched after the resolution block. *)
Lemma set_info_deref a b w :
  ToTiff.deref b (state_after (ToTiff.set_info a) w)
  = ToTiff.deref b (prepared a w).
Proof.
  unfold state_after. rewrite set_info_run.
  destruct (calibrate_cases a (prepared a w)) as [[r ->]|[v ->]].
  - destruct r as [[]|e]; [|reflexivity].
    fold (state_after (finish a) (prepared a w)). apply finish_deref.
  - match goal with |- context [finish a ?w0] =>
      fold (state_after (finish a) w0) end.
    now rewrite finish_deref, deref_on_info.
Qed.

Lemma set_info_req0 a w :
  req0_param (self_info (state_after (ToTiff.set_info a) w))
  = req0_param (self_info w).
Proof.
  unfold state_after. rewrite set_info_run.
  pose proof (calibrate_state_frame a (prepared a w)) as (_ & _ & Hr).
  unfold state_after in Hr.
  destruct (ToTiff.calibrate a (prepared a w)) as [w' [[]|e]]; cbn [fst] in *.
  - fold (state_after (finish a) w'). rewrite finish_req0, Hr. now destruct a.
  - rewrite Hr. now destruct a.
Qed.

Lemma set_info_pitch_lookup a w :
  param (self_info (state_after (ToTiff.set_info a) w)) !! "pitch"
  = param (self_info (state_after (ToTiff.calibrate a) (prepared a w))) !! "pitch".
Proof.
  unfold state_after. rewrite set_info_run.
  destruct (ToTiff.calibrate a (prepared a w)) as [w' [[]|e]]; [|reflexivity].
  fold (state_after (finish a) w'). now rewrite finish_param.
Qed.

Lemma set_info_outcome a w :
  outcome_of (ToTiff.set_info a) w =
  match outcome_of (ToTiff.calibrate a) (prepared a w) with
  | Ok _ =>
      match ToTiff.deref a w !! "split_depth" with
      | Some _ => Ok tt
      | None => Raise (KeyError "split_depth")
      end
  | Raise e => Raise e
  end.
Proof.
  unfold outcome_of. rewrite set_info_run.
  pose proof (calibrate_state_frame a (prepared a w)) as (Hd & _ & _).
  unfold state_after in Hd.
  destruct (ToTiff.calibrate a (prepared a w)) as [w' [[]|e]]; cbn [fst snd] in *;
    [|reflexivity].
  fold (outcome_of (finish a) w'). rewrite finish_outcome.
  now rewrite Hd, prepared_key.
Qed.

(** What [set_info] leaves under [split_depth]: the caller's value when the
    last statement is reached, the entry that the copy brought otherwise. *)
Lemma set_info_split_depth a w :
  param (self_info (state_after (ToTiff.set_info a) w)) !! "split_depth" =
  match outcome_of (ToTiff.calibrate a) (prepared a w),
        ToTiff.deref a w !! "split_depth" with
  | Ok _, Some v =>
      Some (ParamEntry v split_depth_unit split_depth_description)
  | _, _ => (req0_param (self_info w) ∪ param (self_info w)) !! "split_depth"
  end.
Proof.
  rewrite <- (visible_info_lookup a w "split_depth") by done.
  unfold state_after, outcome_of. rewrite set_info_run.
  pose proof (calibrate_state_frame a (prepared a w)) as (Hd & Hp & _).
  unfold state_after in Hd, Hp.
  specialize (Hp "split_depth" ltac:(done)).
  rewrite prepared_info in Hp.
  destruct (ToTiff.calibrate a (prepared a w)) as [w' [[]|e]]; cbn [fst snd] in *;
    [|exact Hp].
  fold (state_after (finish a) w').
  rewrite finish_split_depth, Hd, prepared_key by done.
  now destruct (ToTiff.deref a w !! "split_depth").
Qed.

(** What [set_info] leaves under [scalebar] when its last statement is
    reached or the calibration raised. *)
Lemma set_info_scalebar_lookup a w :
  param (self_info (state_after (ToTiff.set_info a) w)) !! "scalebar" =
  match outcome_of (ToTiff.calibrate a) (prepared a w),
        ToTiff.deref a w !! "scalebar" with
  | Ok _, Some v =>
      Some (ParamEntry v (PStr "list") ToTiff.scalebar_description)
  | _, _ => (req0_param (self_info w) ∪ param (self_info w)) !! "scalebar"
  end.
Proof.
  rewrite <- (visible_info_lookup a w "scalebar") by done.
  unfold state_after, outcome_of. rewrite set_info_run.
  pose proof (calibrate_state_frame a (prepared a w)) as (Hd & Hp & _).
  unfold state_after in Hd, Hp.
  specialize (Hp "scalebar" ltac:(done)).
  rewrite prepared_info in Hp.
  destruct (ToTiff.calibrate a (prepared a w)) as [w' [[]|e]]; cbn [fst snd] in *;
    [|exact Hp].
  fold (state_after (finish a) w').
  rewrite finish_scalebar, Hd, prepared_key by done.
  now destruct (ToTiff.deref a w !! "scalebar").
Qed.

(** What the whole call does when the operands of the calibration convert:
    the outcome and the [pitch] entry are decided by the pixel extent. *)
Lemma set_info_floats a w l0 l1 lrest s0 srest extent fs fd fe :
  InfoM.get_param_value "limit" (visible_info a w) = PList (l0 :: l1 :: lrest) →
  Py.is_not_none l0 = true →
  InfoM.get_param_value "size" (visible_info a w) = PList (s0 :: srest) →
  Py.truthy (InfoM.get_param_value "length_unit" (visible_info a w)) = true →
  Py.as_float s0 = Ok fs →
  Py.as_float (dpi_of (ToTiff.deref a w)) = Ok fd →
  Py.sub l1 l0 = Ok extent → Py.as_float extent = Ok fe →
  if PrimFloat.eqb (pixel_extent fs fd) 0
  then outcome_of (ToTiff.set_info a) w = Raise ZeroDivisionError
       ∧ param (self_info (state_after (ToTiff.set_info a) w)) !! "pitch"
         = param (visible_info a w) !! "pitch"
  else outcome_of (ToTiff.set_info a) w
       = match ToTiff.deref a w !! "split_depth" with
         | Some _ => Ok tt
         | None => Raise (KeyError "split_depth")
         end
       ∧ param (self_info (state_after (ToTiff.set_info a) w)) !! "pitch"
         = Some {| p_value := PFloat (PrimFloat.div fe (pixel_extent fs fd));
                   p_unit := InfoM.get_param_value "length_unit"
                               (visible_info a w);
                   p_description := "Pixel size of figure" |}.
Proof.
  intros Hl Hnn Hs Hu Hfs Hfd Hsub Hfe.
  rewrite <- prepared_info in Hl, Hs, Hu.
  pose proof (calibrate_floats a (prepared a w) _ _ _ _ _ _ _ _ _ _
                Hl Hnn Hs Hu (prepared_dpi a w) Hfs Hfd Hsub Hfe) as Hrun.
  rewrite set_info_outcome, set_info_pitch_lookup.
  unfold outcome_of, state_after. rewrite Hrun.
  destruct (PrimFloat.eqb (pixel_extent fs fd) 0); cbn [fst snd].
  - now rewrite prepared_info.
  - split; [reflexivity|].
    cbn [ToTiff.on_info self_info InfoM.add_param param].
    now rewrite lookup_insert_eq.
Qed.

Lemma calibrate_outcome_ok a w :
  outcome_of (ToTiff.calibrate a) w = Ok tt →
  ToTiff.calibrate a w = (state_after (ToTiff.calibrate a) w, Ok tt).
Proof.
  unfold outcome_of, state_after.
  destruct (ToTiff.calibrate a w) as [w' r]. cbn. now intros ->.
Qed.

End SetInfo.

(** ** Resolution *)

(** C7.  After every call of [set_info] the metadata holds a [dpi] entry
    tagged ["int"]: its value is 400 when the caller's dictionary has no
    ["dpi"] key, and the caller's value otherwise.  This holds whatever the
    rest of the call does. *)
Theorem set_info_dpi_default {C : InfoConstants} (a : param_arg) (w : World) :
  param (self_info (state_after (ToTiff.set_info a) w)) !! "dpi"
  = Some {| p_value := match ToTiff.deref a w !! "dpi" with
                       | Some v => v
                       | None => PInt 400
                       end;
            p_unit := PStr "int";
            p_description := "Dot per inch of figure image" |}.
Proof.
  rewrite set_info_param_other by done.
  unfold visible_info, dpi_of. cbn [InfoM.add_param param].
  rewrite lookup_insert_eq.
  now destruct (ToTiff.deref a w !! "dpi").
Qed.

(** C10.  [set_info] writes into the dictionary object it was given: when
    that object has no ["dpi"] key, it has the entry [dpi = 400] afterwards
    and is otherwise unchanged, the other dictionary is not touched, and a
    second call on the same object (in particular a second call that omits
    the argument, which is bound to the same default object) finds the entry
    left by the first and changes nothing more. *)
Theorem set_info_mutates_param {C : InfoConstants} (a : param_arg) (w : World) :
  ToTiff.deref a w !! "dpi" = None →
  let w1 := state_after (ToTiff.set_info a) w in
  let w2 := state_after (ToTiff.set_info a) w1 in
  ToTiff.deref a w1 = <["dpi" := PInt 400]> (ToTiff.deref a w)
  ∧ (∀ b, b ≠ a → ToTiff.deref b w1 = ToTiff.deref b w)
  ∧ ToTiff.deref a w2 = ToTiff.deref a w1.
Proof.
  intros Hd w1 w2. subst w1 w2.
  assert (H1 : ToTiff.deref a (state_after (ToTiff.set_info a) w)
               = <["dpi" := PInt 400]> (ToTiff.deref a w)).
  { rewrite set_info_deref, prepared_deref. unfold dpi_of. now rewrite Hd. }
  split; [exact H1|split].
  - intros b Hb. rewrite set_info_deref. now destruct a, b.
  - rewrite set_info_deref, prepared_deref. rewrite H1.
    unfold dpi_of. rewrite lookup_insert_eq. cbn [default].
    now rewrite insert_insert_eq.
Qed.

Lemma set_info_mutates_param_witness :
  let w := fresh_world ∅ ∅ in
  let w1 := state_after (ToTiff.set_info (C := sample_constants) Omitted) w in
  let w2 := state_after (ToTiff.set_info (C := sample_constants) Omitted) w1 in
  fn_default w !! "dpi" = None
  ∧ fn_default w1 = <["dpi" := PInt 400]> (fn_default w)
  ∧ fn_default w2 = fn_default w1.
Proof.
  intros w w1 w2.
  split; [reflexivity|].
  destruct (set_info_mutates_param (C := sample_constants) Omitted w eq_refl)
    as (H1 & _ & H2).
  split; [exact H1|exact H2].
Defined.

(** ** Calibration *)

(** C1, as the code has it.  Whenever [limit[0]] is present, [size[0]] and
    the resolution convert to floats, [limit[1] - limit[0]] evaluates and
    converts, and the pixel extent [size[0] / 2.54 * dpi] is not zero, the
    pitch that [set_info] stores is
    [(limit[1] - limit[0]) / (size[0] / 2.54 * dpi)], every operation
    rounded to double precision in the order of the source, tagged with the
    inherited length unit. *)
Theorem set_info_pitch_formula {C : InfoConstants} (a : param_arg) (w : World)
    (l0 l1 s0 : pyval) (lrest srest : list pyval) (extent : pyval)
    (fs fd fe : float) :
  InfoM.get_param_value "limit" (visible_info a w) = PList (l0 :: l1 :: lrest) →
  Py.is_not_none l0 = true →
  InfoM.get_param_value "size" (visible_info a w) = PList (s0 :: srest) →
  Py.truthy (InfoM.get_param_value "length_unit" (visible_info a w)) = true →
  Py.as_float s0 = Ok fs →
  Py.as_float (dpi_of (ToTiff.deref a w)) = Ok fd →
  Py.sub l1 l0 = Ok extent → Py.as_float extent = Ok fe →
  PrimFloat.eqb (fs / 2.54 * fd)%float 0 = false →
  param (self_info (state_after (ToTiff.set_info a) w)) !! "pitch"
  = Some {| p_value := PFloat (fe / (fs / 2.54 * fd))%float;
            p_unit := InfoM.get_param_value "length_unit" (visible_info a w);
            p_description := "Pixel size of figure" |}.
Proof.
  intros Hl Hnn Hs Hu Hfs Hfd Hsub Hfe Hnz.
  pose proof (set_info_floats a w _ _ _ _ _ _ _ _ _
                Hl Hnn Hs Hu Hfs Hfd Hsub Hfe) as H.
  change (fs / 2.54 * fd)%float with (pixel_extent fs fd) in *.
  rewrite Hnz in H. exact (proj2 H).
Qed.

Lemma set_info_pitch_formula_witness :
  param (self_info
           (state_after (ToTiff.set_info (C := sample_constants) Supplied)
              (fresh_world
                 (figure_params limit_0_10_0_5 (size_cm 5.08 3) (PStr "um"))
                 {["split_depth" := PInt 1]}))) !! "pitch"
  = Some {| p_value := PFloat (10 / (5.08 / 2.54 * 400))%float;
            p_unit := PStr "um";
            p_description := "Pixel size of figure" |}.
Proof.
  apply (set_info_pitch_formula (C := sample_constants) Supplied
           (fresh_world
              (figure_params limit_0_10_0_5 (size_cm 5.08 3) (PStr "um"))
              {["split_depth" := PInt 1]})
           (PInt 0) (PInt 10) (PFloat 5.08)
           [PInt 0; PInt 5] [PFloat 3] (PInt 10) 5.08%float 400%float
           10%float);
    vm_compute; reflexivity.
Defined.

(** C1, as stated, fails on inputs whose arithmetic leaves the range of
    the floats.  A positive resolution too large for a float ([10 ** 400])
    makes the multiplication of line 60 raise OverflowError; a positive
    width so small that its quotient by 2.54 rounds to zero (the least
    positive float) makes the pixel extent zero and the division of line 62
    raise ZeroDivisionError.  Neither call stores a pitch. *)
Lemma set_info_pitch_out_of_range :
  let huge_dpi := fresh_world
                    (figure_params limit_0_10_0_5 (size_cm 5.08 3) (PStr "um"))
                    {["dpi" := PInt (10 ^ 400); "split_depth" := PInt 1]} in
  let tiny_width := fresh_world
                      (figure_params limit_0_10_0_5 (size_cm 0x1p-1074 3)
                         (PStr "um"))
                      {["split_depth" := PInt 1]} in
  (0 < 10 ^ 400
   ∧ outcome_of (ToTiff.set_info (C := sample_constants) Supplied) huge_dpi
     = Raise OverflowError
   ∧ param (self_info
              (state_after (ToTiff.set_info (C := sample_constants) Supplied)
                 huge_dpi)) !! "pitch" = None)
  ∧ (PrimFloat.ltb 0 0x1p-1074 = true
     ∧ outcome_of (ToTiff.set_info (C := sample_constants) Supplied) tiny_width
       = Raise ZeroDivisionError
     ∧ param (self_info
                (state_after (ToTiff.set_info (C := sample_constants) Supplied)
                   tiny_width)) !! "pitch" = None).
Proof.
  intros huge_dpi tiny_width.
  repeat split; vm_compute; reflexivity.
Qed.




(** C6, as the code has it.  Take an input whose metadata, after the copy of
    the inherited parameters, holds no [pitch].
    - If the call returns normally, its metadata holds a [pitch] entry
      exactly when [limit], [size] and [length_unit] are all true in the
      sense of Python (present, and not empty or zero) and [limit[0]] is not
      None.
    - If one of the three is absent or empty, the calibration is skipped
      without raising: no [pitch] entry is made and the call ends as the
      rest of the method decides (normally, or with the KeyError of a
      missing ["split_depth"]).
    - If the three are true and [limit[0]] is None, the pixel extent is
      still evaluated; when [size[0]] and the resolution convert to floats
      nothing is raised, no [pitch] entry is made and the call ends as the
      rest of the method decides. *)
Theorem set_info_pitch_presence {C : InfoConstants} (a : param_arg)
    (w : World) :
  param (visible_info a w) !! "pitch" = None →
  (outcome_of (ToTiff.set_info a) w = Ok tt →
     (is_Some (param (self_info (state_after (ToTiff.set_info a) w)) !! "pitch")
      ↔ calibration_complete (visible_info a w) = true))
  ∧ (Py.truthy (InfoM.get_param_value "limit" (visible_info a w))
     && Py.truthy (InfoM.get_param_value "size" (visible_info a w))
     && Py.truthy (InfoM.get_param_value "length_unit" (visible_info a w))
     = false →
     param (self_info (state_after (ToTiff.set_info a) w)) !! "pitch" = None
     ∧ outcome_of (ToTiff.set_info a) w
       = match ToTiff.deref a w !! "split_depth" with
         | Some _ => Ok tt
         | None => Raise (KeyError "split_depth")
         end)
  ∧ (∀ lrest s0 srest fs fd,
       InfoM.get_param_value "limit" (visible_info a w)
       = PList (PNone :: lrest) →
       InfoM.get_param_value "size" (visible_info a w) = PList (s0 :: srest) →
       Py.truthy (InfoM.get_param_value "length_unit" (visible_info a w))
       = true →
       Py.as_float s0 = Ok fs →
       Py.as_float (dpi_of (ToTiff.deref a w)) = Ok fd →
       param (self_info (state_after (ToTiff.set_info a) w)) !! "pitch" = None
       ∧ outcome_of (ToTiff.set_info a) w
         = match ToTiff.deref a w !! "split_depth" with
           | Some _ => Ok tt
           | None => Raise (KeyError "split_depth")
           end).
Proof.
  intros Hnone. split; [|split].
  - intros Hok. rewrite set_info_outcome in Hok.
    destruct (outcome_of (ToTiff.calibrate a) (prepared a w)) as [[]|e] eqn:Hc;
      [|discriminate].
    apply calibrate_outcome_ok, calibrate_ok in Hc.
    rewrite set_info_pitch_lookup. rewrite prepared_info in Hc.
    destruct (calibration_complete (visible_info a w)).
    + destruct Hc as [v ->].
      cbn [ToTiff.on_info self_info InfoM.add_param param].
      rewrite lookup_insert_eq. split; eauto.
    + rewrite Hc, prepared_info, Hnone. split; [intros [? ?]|]; discriminate.
  - intros Hskip. rewrite <- prepared_info in Hskip.
    pose proof (calibrate_skip a (prepared a w) Hskip) as Hrun.
    split.
    + rewrite set_info_pitch_lookup. unfold state_after. rewrite Hrun.
      cbn [fst]. now rewrite prepared_info.
    + rewrite set_info_outcome. unfold outcome_of. now rewrite Hrun.
  - intros lrest s0 srest fs fd Hl Hs Hu Hfs Hfd.
    rewrite <- prepared_info in Hl, Hs, Hu.
    pose proof (calibrate_limit0_none a (prepared a w) _ _ _ _ _ _
                  Hl Hs Hu (prepared_dpi a w) Hfs Hfd) as Hrun.
    split.
    + rewrite set_info_pitch_lookup. unfold state_after. rewrite Hrun.
      cbn [fst]. now rewrite prepared_info.
    + rewrite set_info_outcome. unfold outcome_of. now rewrite Hrun.
Qed.

Lemma set_info_pitch_presence_witness :
  let w0 := fresh_world
              (figure_params (PList [PNone; PInt 10; PInt 0; PInt 5])
                 (size_cm 5.08 3) (PStr "um"))
              {["split_depth" := PInt 1]} in
  param (self_info
           (state_after (ToTiff.set_info (C := sample_constants) Supplied) w0))
    !! "pitch" = None
  ∧ outcome_of (ToTiff.set_info (C := sample_constants) Supplied) w0 = Ok tt.
Proof.
  intros w0.
  destruct (set_info_pitch_presence (C := sample_constants) Supplied w0)
    as (_ & _ & Hnone); [vm_compute; reflexivity|].
  apply (Hnone [PInt 10; PInt 0; PInt 5] (PFloat 5.08) [PFloat 3]
           5.08%float 400%float);
    vm_compute; reflexivity.
Defined.

(** C6, as stated, fails in four ways.
    - All of [limit], [size], [length_unit] are present and [limit[0]] is
      not None, but the physical width is 0: the call raises and the
      metadata it leaves has no [pitch].
    - All are present, but the length unit is the empty string: the call
      returns and there is no [pitch].
    - No [limit] at all, but the required data already carries a [pitch]
      parameter: it is copied, so the output has a [pitch].
    - [limit[0]] is None, but the resolution is too large for a float: the
      pixel extent is evaluated before [limit[0]] is looked at, so the call
      raises OverflowError instead of skipping the calibration. *)
Lemma set_info_pitch_not_iff_present :
  let zero_width := fresh_world
                      (figure_params limit_0_10_0_5 (size_cm 0 3) (PStr "um"))
                      {["split_depth" := PInt 1]} in
  let empty_unit := fresh_world
                      (figure_params limit_0_10_0_5 (size_cm 5.08 3) (PStr ""))
                      {["split_depth" := PInt 1]} in
  let old_pitch := fresh_world
                     {["pitch" := ParamEntry (PFloat 0.1) (PStr "um")
                                    "Pixel size"]}
                     {["split_depth" := PInt 1]} in
  let no_limit0 := fresh_world
                     (figure_params (PList [PNone; PInt 10; PInt 0; PInt 5])
                        (size_cm 5.08 3) (PStr "um"))
                     {["dpi" := PInt (10 ^ 400); "split_depth" := PInt 1]} in
  (outcome_of (ToTiff.set_info (C := sample_constants) Supplied) zero_width
   = Raise ZeroDivisionError
   ∧ param (self_info
              (state_after (ToTiff.set_info (C := sample_constants) Supplied)
                 zero_width)) !! "pitch" = None)
  ∧ (outcome_of (ToTiff.set_info (C := sample_constants) Supplied) empty_unit
     = Ok tt
     ∧ param (self_info
                (state_after (ToTiff.set_info (C := sample_constants) Supplied)
                   empty_unit)) !! "pitch" = None)
  ∧ (outcome_of (ToTiff.set_info (C := sample_constants) Supplied) old_pitch
     = Ok tt
     ∧ InfoM.get_param_value "limit" (visible_info Supplied old_pitch) = PNone
     ∧ param (self_info
                (state_after (ToTiff.set_info (C := sample_constants) Supplied)
                   old_pitch)) !! "pitch"
       = Some (ParamEntry (PFloat 0.1) (PStr "um") "Pixel size"))
  ∧ outcome_of (ToTiff.set_info (C := sample_constants) Supplied) no_limit0
    = Raise OverflowError.
Proof.
  intros zero_width empty_unit old_pitch no_limit0.
  repeat split; vm_compute; reflexivity.
Qed.

(** ** Split depth and inheritance *)

(** C8.  The split depth comes from the caller's ["split_depth"] and from
    nowhere else, and the inherited parameters are copied before anything
    is added.
    - Every inherited parameter is found, unchanged, in the metadata that
      [set_info] leaves, unless it is one of the four keys written after
      the copy (["dpi"], ["pitch"], ["scalebar"], ["split_depth"]).
    - Without a ["split_depth"] key the call raises (the exception of the
      calibration if that raised, KeyError otherwise) and the metadata holds
      under ["split_depth"] what the copy left there: no default is
      substituted.
    - With ["split_depth" = v] the call returns with the split depth set to
      [v]; the only other way out is an exception raised by the calibration
      block, which leaves under ["split_depth"] what the copy left there. *)
Theorem set_info_split_depth_mandatory {C : InfoConstants} (a : param_arg)
    (w : World) :
  (∀ k e, k ≠ "dpi" → k ≠ "pitch" → k ≠ "scalebar" → k ≠ "split_depth" →
          req0_param (self_info w) !! k = Some e →
          param (self_info (state_after (ToTiff.set_info a) w)) !! k = Some e)
  ∧ (ToTiff.deref a w !! "split_depth" = None →
       outcome_of (ToTiff.set_info a) w
       = match outcome_of (ToTiff.calibrate a) (prepared a w) with
         | Ok _ => Raise (KeyError "split_depth")
         | Raise e => Raise e
         end
       ∧ param (self_info (state_after (ToTiff.set_info a) w)) !! "split_depth"
         = (req0_param (self_info w) ∪ param (self_info w)) !! "split_depth")
  ∧ (∀ v, ToTiff.deref a w !! "split_depth" = Some v →
       (outcome_of (ToTiff.set_info a) w = Ok tt
        ∧ InfoM.get_param_value "split_depth"
            (self_info (state_after (ToTiff.set_info a) w)) = v)
       ∨ (∃ e, outcome_of (ToTiff.calibrate a) (prepared a w) = Raise e
               ∧ outcome_of (ToTiff.set_info a) w = Raise e
               ∧ param (self_info (state_after (ToTiff.set_info a) w))
                   !! "split_depth"
                 = (req0_param (self_info w) ∪ param (self_info w))
                     !! "split_depth")).
Proof.
  split; [|split].
  - intros k e Hd Hp Hs Hsd Hk.
    rewrite set_info_param_other, visible_info_lookup by done.
    now apply lookup_union_Some_l.
  - intros Hnone. rewrite set_info_outcome, set_info_split_depth, Hnone.
    destruct (outcome_of (ToTiff.calibrate a) (prepared a w)) as [[]|e]; eauto.
  - intros v Hv. unfold InfoM.get_param_value.
    rewrite set_info_outcome, set_info_split_depth, Hv.
    destruct (outcome_of (ToTiff.calibrate a) (prepared a w)) as [[]|e]; eauto.
Qed.

Lemma set_info_split_depth_mandatory_witness :
  let inh := <["split_depth" := ParamEntry (PInt 3) (PStr "num") "Inherited"]>
             (figure_params limit_0_10_0_5 (size_cm 5.08 3) (PStr "um")) in
  let w0 := fresh_world inh {["split_depth" := PInt 2]} in
  param (self_info
           (state_after (ToTiff.set_info (C := sample_constants) Supplied) w0))
    !! "size" = inh !! "size"
  ∧ (outcome_of (ToTiff.set_info (C := sample_constants) Supplied) w0 = Ok tt
     ∧ InfoM.get_param_value "split_depth"
         (self_info
            (state_after (ToTiff.set_info (C := sample_constants) Supplied) w0))
       = PInt 2)
  ∧ (outcome_of (ToTiff.set_info (C := sample_constants) Omitted) w0
     = Raise (KeyError "split_depth")
     ∧ param (self_info
                (state_after (ToTiff.set_info (C := sample_constants) Omitted)
                   w0)) !! "split_depth"
       = Some (ParamEntry (PInt 3) (PStr "num") "Inherited")).
Proof.
  intros inh w0.
  destruct (set_info_split_depth_mandatory (C := sample_constants) Supplied w0)
    as (Hcopy & _ & Hset).
  destruct (set_info_split_depth_mandatory (C := sample_constants) Omitted w0)
    as (_ & Hnone & _).
  split; [|split].
  - now apply Hcopy.
  - destruct (Hset (PInt 2) eq_refl) as [H|(e & Hc & _)]; [exact H|].
    vm_compute in Hc. discriminate Hc.
  - exact (Hnone eq_refl).
Defined.

(** ** Scale bar *)






Lemma get_stack_run renderer d f :
  get_stack renderer d f
  = ({| axes := axes f; dpi := d; canvas := renderer (axes f) d |},
     match Np.reshape3 (snd (width_height (renderer (axes f) d)))
             (fst (width_height (renderer (axes f) d)))
             (buffer_rgb (renderer (axes f) d)) with
     | Ok fig_rgb => Ok [Np.flipud (Np.plane 0 fig_rgb);
                         Np.flipud (Np.plane 1 fig_rgb);
                         Np.flipud (Np.plane 2 fig_rgb)]
     | Raise e => Raise e
     end).
Proof.
  unfold get_stack, set_dpi, canvas_draw, tostring_rgb, get_width_height,
    bind, modify, gets, lift, ret.
  cbn [axes dpi canvas fst snd].
  now destruct (Np.reshape3 _ _ _).
Qed.

(** Rasterising does not touch the artists. *)
Lemma rasterize_axes renderer prm f :
  axes (state_after (bind (dict_item prm "dpi") (get_stack renderer)) f)
  = axes f.
Proof.
  unfold state_after, bind, dict_item, lift.
  destruct (prm !! "dpi"); [|reflexivity].
  now rewrite get_stack_run.
Qed.



(** The same instance with the limits and the length given as integers,
    as the documentation writes them. *)
Example process_scale_bar_integers :
  let prm : dict :=
    {[ "limit" := limit_0_10_0_5;
       "scalebar" := PList [PInt 2; PFloat 0.1; PFloat 0.2; PFloat 1.5;
                            PList [PInt 255; PInt 0; PInt 51]];
       "dpi" := PInt 400 ]} in
  axes (state_after (process blank_renderer lenient_plot prm) empty_figure)
  = [ {| lines :=
           [ {| xdata := [PFloat 1; PFloat 3];
                ydata := [PFloat 1; PFloat 1];
                linewidth := PFloat 1.5;
                color := PList [PFloat 1; PFloat 0; PFloat 0.2] |} ] |} ].
Proof. vm_compute. reflexivity. Qed.

(** ** Reshaping, slicing and flipping *)

Section Arrays.

Context {A : Type}.
Implicit Types (l buf : list A) (a : list (list (list A))).

Lemma length_chunks k n l : length (Np.chunks k n l) = k.
Proof. revert l. induction k as [|k IH]; intros l; simpl; auto. Qed.

Lemma chunks_lookup k n l i :
  (i < k)%nat → Np.chunks k n l !! i = Some (take n (drop (i * n) l)).
Proof.
  revert l i. induction k as [|k IH]; intros l i Hi; [lia|].
  destruct i as [|i]; simpl; [reflexivity|].
  rewrite IH by lia. now rewrite drop_drop.
Qed.

(** Pixel [(i, j)] of the reshaped buffer is the block of three bytes at
    offset [(i * w + j) * 3]. *)
Lemma reshape_pixel h w buf i j :
  (i < h)%nat → (j < w)%nat →
  (Np.chunks w 3 <$> Np.chunks h (w * 3) buf) !! i ≫= (.!! j)
  = Some (take 3 (drop (j * 3) (take (w * 3) (drop (i * (w * 3)) buf)))).
Proof.
  intros Hi Hj. rewrite list_lookup_fmap, chunks_lookup by done.
  cbn. now apply chunks_lookup.
Qed.

Lemma block_component w buf i j c :
  (j < w)%nat → (c < 3)%nat →
  take 3 (drop (j * 3) (take (w * 3) (drop (i * (w * 3)) buf))) !! c
  = buf !! ((i * w + j) * 3 + c)%nat.
Proof.
  intros Hj Hc.
  rewrite lookup_take_lt, lookup_drop, lookup_take_lt, lookup_drop by lia.
  f_equal. lia.
Qed.

(** Slicing out one component keeps the shape of a row all of whose pixels
    have that component. *)
Lemma omap_lookup_total {B} (f : list A → option B) (row : list (list A)) :
  Forall (λ px, is_Some (f px)) row →
  length (omap f row) = length row
  ∧ ∀ j, omap f row !! j = row !! j ≫= f.
Proof.
  induction 1 as [|px row [y Hy] _ [IHlen IHj]]; [split; [done|now intros []]|].
  cbn [omap list_omap]. rewrite Hy. split; [cbn; now rewrite IHlen|].
  intros [|j]; cbn; [done|apply IHj].
Qed.

Lemma chunks_Forall_length k l :
  length l = (k * 3)%nat →
  Forall (λ px, length px = 3%nat) (Np.chunks k 3 l).
Proof.
  intros Hl. apply Forall_lookup_2. intros j px Hpx.
  assert (j < k)%nat as Hj
    by (apply lookup_lt_Some in Hpx; now rewrite length_chunks in Hpx).
  rewrite chunks_lookup in Hpx by done. injection Hpx as <-.
  rewrite length_take, length_drop. lia.
Qed.

End Arrays.

Section Planes.

Context {A : Type}.

Variables (h w : nat) (buf : list A).
Hypothesis buf_length : length buf = (h * w * 3)%nat.

Let fig_rgb : list (list (list A)) :=
  Np.chunks w 3 <$> Np.chunks h (w * 3) buf.

Lemma row_length i :
  (i < h)%nat → length (take (w * 3) (drop (i * (w * 3)) buf)) = (w * 3)%nat.
Proof.
  intros Hi. rewrite length_take, length_drop, buf_length.
  assert (S i * (w * 3) ≤ h * (w * 3))%nat by (apply Nat.mul_le_mono_r; lia).
  lia.
Qed.

Lemma plane_row c i :
  (i < h)%nat → (c < 3)%nat →
  ∃ row, Np.plane c fig_rgb !! i = Some row
         ∧ length row = w
         ∧ ∀ j, (j < w)%nat → row !! j = buf !! ((i * w + j) * 3 + c)%nat.
Proof.
  intros Hi Hc. unfold Np.plane, fig_rgb.
  rewrite !list_lookup_fmap, chunks_lookup by done. cbn [fmap option_fmap option_map].
  eexists. split; [reflexivity|].
  destruct (omap_lookup_total (λ px : list A, px !! c)
              (Np.chunks w 3 (take (w * 3) (drop (i * (w * 3)) buf))))
    as [Hlen Hj].
  { eapply Forall_impl; [apply chunks_Forall_length, row_length, Hi|].
    intros px Hpx. cbv beta in Hpx. apply lookup_lt_is_Some_2. lia. }
  split; [now rewrite Hlen, length_chunks|].
  intros j Hjw. rewrite Hj, chunks_lookup by done. cbn.
  now apply block_component.
Qed.

Lemma plane_length c : length (Np.plane c fig_rgb) = h.
Proof. unfold Np.plane, fig_rgb. now rewrite !length_fmap, length_chunks. Qed.

(** One flipped plane: [h] rows of [w] entries, and entry [(i, j)] is
    component [c] of the pixel in row [h - 1 - i] of the buffer. *)
Lemma flipped_plane c :
  (c < 3)%nat →
  length (Np.flipud (Np.plane c fig_rgb)) = h
  ∧ Forall (λ row, length row = w) (Np.flipud (Np.plane c fig_rgb))
  ∧ ∀ i j, (i < h)%nat → (j < w)%nat →
      Np.flipud (Np.plane c fig_rgb) !! i ≫= (.!! j)
      = buf !! (((h - 1 - i) * w + j) * 3 + c)%nat.
Proof.
  intros Hc. unfold Np.flipud. split; [|split].
  - now rewrite length_reverse, plane_length.
  - apply Forall_reverse, Forall_lookup_2. intros i row Hrow.
    assert (i < h)%nat as Hi
      by (apply lookup_lt_Some in Hrow; now rewrite plane_length in Hrow).
    destruct (plane_row c i Hi Hc) as (row' & Hrow' & Hlen & _). congruence.
  - intros i j Hi Hj.
    rewrite reverse_lookup by (rewrite plane_length; lia).
    rewrite plane_length.
    destruct (plane_row c (h - S i) ltac:(lia) Hc) as (row & -> & _ & Hent).
    cbn. rewrite Hent by done. f_equal. lia.
Qed.

End Planes.

(** ** Rasterisation *)

(** C2.  When the buffer of the redrawn canvas holds three bytes for each of
    the [W * H] pixels it reports, [get_stack] returns three planes, in the
    order R, G, B.  Each plane has [H] rows of [W] bytes, and entry [(i, j)]
    of plane [c] is byte [c] of the pixel in row [H - 1 - i], column [j] of
    the row-major buffer: the buffer reshaped to [(H, W, 3)], sliced by
    component and flipped top to bottom. *)
Theorem get_stack_channels (renderer : list Axes → pyval → Canvas)
    (fig : Figure) (d : pyval) :
  let cv := renderer (axes fig) d in
  let W := fst (width_height cv) in
  let H := snd (width_height cv) in
  length (buffer_rgb cv) = (H * W * 3)%nat →
  ∃ R G B : list (list Byte.byte),
    outcome_of (get_stack renderer d) fig = Ok [R; G; B]
    ∧ ∀ c ch, [R; G; B] !! c = Some ch →
        length ch = H
        ∧ Forall (λ row, length row = W) ch
        ∧ ∀ i j, (i < H)%nat → (j < W)%nat →
            ch !! i ≫= (.!! j)
            = buffer_rgb cv !! (((H - 1 - i) * W + j) * 3 + c)%nat.
Proof.
  intros cv W H Hlen.
  unfold outcome_of. rewrite get_stack_run. cbn [snd].
  fold cv. fold W. fold H.
  unfold Np.reshape3. rewrite Hlen, Nat.eqb_refl.
  eexists _, _, _. split; [reflexivity|].
  intros c ch Hch.
  destruct c as [|[|[|c]]]; cbn in Hch; try discriminate;
    injection Hch as <-; apply flipped_plane; (done || lia).
Qed.

Lemma get_stack_channels_witness :
  ∃ R G B : list (list Byte.byte),
    outcome_of (get_stack counting_renderer (PInt 400)) empty_figure
    = Ok [R; G; B]
    ∧ ∀ c ch, [R; G; B] !! c = Some ch →
        length ch = 3%nat
        ∧ Forall (λ row, length row = 2%nat) ch
        ∧ ∀ i j, (i < 3)%nat → (j < 2)%nat →
            ch !! i ≫= (.!! j)
            = buffer_rgb (counting_renderer [] PNone)
                !! (((3 - 1 - i) * 2 + j) * 3 + c)%nat.
Proof.
  exact (get_stack_channels counting_renderer empty_figure (PInt 400) eq_refl).
Defined.

(** The planes of the sample canvas, written out: row 0 of each plane comes
    from the last row of the buffer. *)
Example get_stack_counting :
  outcome_of (get_stack counting_renderer (PInt 400)) empty_figure
  = Ok [ [ [Byte.x0c; Byte.x0f]; [Byte.x06; Byte.x09]; [Byte.x00; Byte.x03] ];
         [ [Byte.x0d; Byte.x10]; [Byte.x07; Byte.x0a]; [Byte.x01; Byte.x04] ];
         [ [Byte.x0e; Byte.x11]; [Byte.x08; Byte.x0b]; [Byte.x02; Byte.x05] ] ].
Proof. vm_compute. reflexivity. Qed.

(** ** Saving a figure *)

(** C5, as the code has it.  [save_data] runs the save of the base class and
    then [plt.clf()], with nothing to catch an exception in between.  When
    the underlying save returns, the current figure is cleared right after
    it and nothing else changes; when it raises, the exception goes to the
    caller and the state is as the failed save left it. *)
Theorem save_data_clears_on_success
    (Pickle_save_data : Figure → string → M Process unit)
    (data : Figure) (path : string) (p : Process) :
  (∀ p1, Pickle_save_data data path p = (p1, Ok tt) →
         save_data Pickle_save_data data path p
         = ({| files := files p1; plt_current := [] |}, Ok tt))
  ∧ (∀ p1 e, Pickle_save_data data path p = (p1, Raise e) →
             save_data Pickle_save_data data path p = (p1, Raise e)).
Proof.
  split.
  - intros p1 H. unfold save_data. now rewrite (bind_ok _ _ _ _ _ H).
  - intros p1 e H. unfold save_data. now rewrite (bind_raise _ _ _ _ _ H).
Qed.

Lemma save_data_clears_on_success_witness :
  save_data sample_save empty_figure "a.fig" busy_process
  = ({| files := {["a.fig" := empty_figure]}; plt_current := [] |}, Ok tt).
Proof.
  exact (proj1 (save_data_clears_on_success sample_save empty_figure "a.fig"
                  busy_process) _ eq_refl).
Defined.

(** C5, as stated, fails on the failure path: when the underlying save
    raises, [plt.clf()] is not reached and the current figure keeps its
    artists. *)
Lemma save_data_failure_keeps_context :
  outcome_of (save_data sample_save empty_figure "") busy_process
  = Raise OSError
  ∧ plt_current (state_after (save_data sample_save empty_figure "")
                   busy_process)
    = [ {| lines := [] |} ]
  ∧ plt_current (state_after (save_data sample_save empty_figure "")
                   busy_process) ≠ [].
Proof. repeat split. discriminate. Qed.

(** * Further properties *)


(** ** What the calibration block reads *)

(** The block looks at the metadata and the dictionary through seven reads
    only: whether [limit] and [size] are true, [limit[0]], [limit[1]],
    [size[0]], the value of [length_unit], and the ["dpi"] item.  Two states
    that agree on them fare alike: both raise the same exception, or both
    skip the calibration, or both store the same pitch. *)
Lemma calibrate_reads a w w' :
  Py.truthy (InfoM.get_param_value "limit" (self_info w'))
  = Py.truthy (InfoM.get_param_value "limit" (self_info w)) →
  Py.getitem (InfoM.get_param_value "limit" (self_info w')) 0
  = Py.getitem (InfoM.get_param_value "limit" (self_info w)) 0 →
  Py.getitem (InfoM.get_param_value "limit" (self_info w')) 1
  = Py.getitem (InfoM.get_param_value "limit" (self_info w)) 1 →
  Py.truthy (InfoM.get_param_value "size" (self_info w'))
  = Py.truthy (InfoM.get_param_value "size" (self_info w)) →
  Py.getitem (InfoM.get_param_value "size" (self_info w')) 0
  = Py.getitem (InfoM.get_param_value "size" (self_info w)) 0 →
  InfoM.get_param_value "length_unit" (self_info w')
  = InfoM.get_param_value "length_unit" (self_info w) →
  ToTiff.deref a w' !! "dpi" = ToTiff.deref a w !! "dpi" →
  (∃ e, ToTiff.calibrate a w = (w, Raise e)
        ∧ ToTiff.calibrate a w' = (w', Raise e))
  ∨ (calibration_complete (self_info w) = false
     ∧ ToTiff.calibrate a w = (w, Ok tt)
     ∧ ToTiff.calibrate a w' = (w', Ok tt))
  ∨ (calibration_complete (self_info w) = true
     ∧ ∃ v, ToTiff.calibrate a w
            = (ToTiff.on_info
                 (InfoM.add_param "pitch" v
                    (InfoM.get_param_value "length_unit" (self_info w))
                    "Pixel size of figure") w, Ok tt)
            ∧ ToTiff.calibrate a w'
              = (ToTiff.on_info
                   (InfoM.add_param "pitch" v
                      (InfoM.get_param_value "length_unit" (self_info w))
                      "Pixel size of figure") w', Ok tt)).
Proof.
  intros Htl H0 H1 Hts Hs0 Hu Hd.
  unfold calibration_complete, limit0_present.
  unfold_calibrate. cbn beta iota. rewrite Htl, H0, H1, Hts, Hs0, Hu.
  clear Htl H0 H1 Hts Hs0 Hu.
  destruct (Py.truthy (InfoM.get_param_value "limit" (self_info w)));
    cbn [andb]; cbn beta iota; [|right; left; eauto].
  destruct (Py.truthy (InfoM.get_param_value "size" (self_info w)));
    cbn [andb]; cbn beta iota; [|right; left; eauto].
  destruct (Py.truthy (InfoM.get_param_value "length_unit" (self_info w)));
    cbn [andb]; cbn beta iota; [|right; left; eauto].
  rewrite Hd. clear Hd.
  destruct (Py.getitem (InfoM.get_param_value "size" (self_info w)) 0);
    [|left; eauto].
  destruct (Py.truediv _ ToTiff.cm_per_inch); [|left; eauto].
  destruct (ToTiff.deref a w !! "dpi"); cbn beta iota; [|left; eauto].
  destruct (Py.mul_float _ _); [|left; eauto].
  destruct (Py.getitem (InfoM.get_param_value "limit" (self_info w)) 0)
    as [l0|]; [|left; eauto].
  destruct (Py.is_not_none l0); cbn beta iota; [|right; left; eauto].
  destruct (Py.getitem _ 1); [|left; eauto].
  destruct (Py.sub _ _); [|left; eauto].
  destruct (Py.truediv _ _); [|left; eauto].
  right; right; eauto.
Qed.


(** ** The scale-bar entry of the metadata *)

(** X1.  A scale bar given by the caller is recorded as it is, tagged
    ["list"], with the fixed description, as soon as the calibration block
    has not raised: there is no check that the calibration inputs it is
    documented to need exist, nor of its shape.  In every other case the
    ["scalebar"] entry is the one the metadata had after the copy. *)
Theorem set_info_scalebar_entry {C : InfoConstants} (a : param_arg)
    (w : World) :
  param (self_info (state_after (ToTiff.set_info a) w)) !! "scalebar"
  = match outcome_of (ToTiff.calibrate a) (prepared a w),
          ToTiff.deref a w !! "scalebar" with
    | Ok _, Some v =>
        Some {| p_value := v; p_unit := PStr "list";
                p_description := ToTiff.scalebar_description |}
    | _, _ => param (visible_info a w) !! "scalebar"
    end.
Proof.
  rewrite set_info_scalebar_lookup, (visible_info_lookup a w "scalebar") by done.
  reflexivity.
Qed.

(** ** Only the x axis is calibrated *)




(** ** Calling [set_info] again *)

Section Again.
Context {C : InfoConstants}.

Lemma set_info_dpi_of a w :
  dpi_of (ToTiff.deref a (state_after (ToTiff.set_info a) w))
  = dpi_of (ToTiff.deref a w).
Proof.
  rewrite set_info_deref, prepared_deref. unfold dpi_of.
  now rewrite lookup_insert_eq.
Qed.

(** After a call, the metadata a further call would see agrees with what the
    first call saw, except possibly under ["pitch"], ["scalebar"] and
    ["split_depth"]. *)
Lemma visible_info_again a w k :
  k ≠ "pitch" → k ≠ "scalebar" → k ≠ "split_depth" →
  param (visible_info a (state_after (ToTiff.set_info a) w)) !! k
  = param (visible_info a w) !! k.
Proof.
  intros Hp Hs Hsd. destruct (decide (k = "dpi")) as [->|Hd].
  - unfold visible_info. cbn [InfoM.add_param param].
    now rewrite !lookup_insert_eq, set_info_dpi_of.
  - rewrite !visible_info_lookup by done. rewrite set_info_req0.
    apply union_lookup_absorb.
    now rewrite set_info_param_other, visible_info_lookup.
Qed.

Lemma get_param_value_again a w k :
  k ≠ "pitch" → k ≠ "scalebar" → k ≠ "split_depth" →
  InfoM.get_param_value k (visible_info a (state_after (ToTiff.set_info a) w))
  = InfoM.get_param_value k (visible_info a w).
Proof.
  intros Hp Hs Hsd. unfold InfoM.get_param_value.
  now rewrite visible_info_again.
Qed.

Lemma set_info_deref_again a b w :
  ToTiff.deref b (state_after (ToTiff.set_info a)
                    (state_after (ToTiff.set_info a) w))
  = ToTiff.deref b (state_after (ToTiff.set_info a) w).
Proof.
  rewrite (set_info_deref a b (state_after _ _)).
  assert (Hsame : ToTiff.deref a (prepared a (state_after (ToTiff.set_info a) w))
                  = ToTiff.deref a (state_after (ToTiff.set_info a) w)).
  { rewrite prepared_deref, set_info_dpi_of.
    rewrite set_info_deref, prepared_deref. now rewrite insert_insert_eq. }
  destruct a, b; try exact Hsame; reflexivity.
Qed.

(** The calibration of a repeated call reads what the first call read. *)
Lemma calibrate_again a w :
  let w1 := state_after (ToTiff.set_info a) w in
  (∃ e, ToTiff.calibrate a (prepared a w) = (prepared a w, Raise e)
        ∧ ToTiff.calibrate a (prepared a w1) = (prepared a w1, Raise e))
  ∨ (ToTiff.calibrate a (prepared a w) = (prepared a w, Ok tt)
     ∧ ToTiff.calibrate a (prepared a w1) = (prepared a w1, Ok tt))
  ∨ (∃ v u,
       ToTiff.calibrate a (prepared a w)
       = (ToTiff.on_info (InfoM.add_param "pitch" v u "Pixel size of figure")
            (prepared a w), Ok tt)
       ∧ ToTiff.calibrate a (prepared a w1)
         = (ToTiff.on_info (InfoM.add_param "pitch" v u "Pixel size of figure")
              (prepared a w1), Ok tt)).
Proof.
  intros w1.
  destruct (calibrate_reads a (prepared a w) (prepared a w1))
    as [H|[(_ & H)|(_ & v & H)]]; rewrite ?prepared_info; subst w1;
    try (now rewrite !get_param_value_again by done).
  - rewrite !prepared_dpi. now rewrite set_info_dpi_of.
  - now left.
  - right; now left.
  - right; right. eexists _, _. exact H.
Qed.

Lemma set_info_key_again a w k :
  k ≠ "dpi" →
  ToTiff.deref a (state_after (ToTiff.set_info a) w) !! k
  = ToTiff.deref a w !! k.
Proof. intros Hk. now rewrite set_info_deref, prepared_key. Qed.

Lemma pitch_lookup_run a w w2 r :
  ToTiff.calibrate a (prepared a w) = (w2, r) →
  param (self_info (state_after (ToTiff.set_info a) w)) !! "pitch"
  = param (self_info w2) !! "pitch".
Proof.
  intros H. rewrite set_info_pitch_lookup. unfold state_after. now rewrite H.
Qed.

Lemma calibrate_outcome_again a w :
  outcome_of (ToTiff.calibrate a)
    (prepared a (state_after (ToTiff.set_info a) w))
  = outcome_of (ToTiff.calibrate a) (prepared a w).
Proof.
  unfold outcome_of.
  destruct (calibrate_again a w)
    as [(e & -> & ->)|[(-> & ->)|(v & u & -> & ->)]]; reflexivity.
Qed.

Lemma set_info_pitch_again a w :
  param (self_info (state_after (ToTiff.set_info a)
                      (state_after (ToTiff.set_info a) w))) !! "pitch"
  = param (self_info (state_after (ToTiff.set_info a) w)) !! "pitch".
Proof.
  destruct (calibrate_again a w)
    as [(e & Hr & Hr1)|[(Hr & Hr1)|(v & u & Hr & Hr1)]];
    rewrite (pitch_lookup_run _ _ _ _ Hr1).
  - rewrite prepared_info, visible_info_lookup, set_info_req0 by done.
    assert (E : param (self_info (state_after (ToTiff.set_info a) w)) !! "pitch"
                = (req0_param (self_info w) ∪ param (self_info w)) !! "pitch")
      by now rewrite (pitch_lookup_run _ _ _ _ Hr), prepared_info,
           visible_info_lookup.
    rewrite E. now apply union_lookup_absorb.
  - rewrite prepared_info, visible_info_lookup, set_info_req0 by done.
    assert (E : param (self_info (state_after (ToTiff.set_info a) w)) !! "pitch"
                = (req0_param (self_info w) ∪ param (self_info w)) !! "pitch")
      by now rewrite (pitch_lookup_run _ _ _ _ Hr), prepared_info,
           visible_info_lookup.
    rewrite E. now apply union_lookup_absorb.
  - rewrite (pitch_lookup_run _ _ _ _ Hr).
    cbn [ToTiff.on_info self_info InfoM.add_param param].
    now rewrite !lookup_insert_eq.
Qed.

Lemma set_info_scalebar_again a w :
  param (self_info (state_after (ToTiff.set_info a)
                      (state_after (ToTiff.set_info a) w))) !! "scalebar"
  = param (self_info (state_after (ToTiff.set_info a) w)) !! "scalebar".
Proof.
  rewrite (set_info_scalebar_lookup a (state_after _ _)).
  rewrite calibrate_outcome_again, set_info_key_again, set_info_req0 by done.
  pose proof (set_info_scalebar_lookup a w) as H1.
  destruct (outcome_of (ToTiff.calibrate a) (prepared a w)) as [[]|e];
    destruct (ToTiff.deref a w !! "scalebar"); try (now rewrite H1).
  all: rewrite H1; now apply union_lookup_absorb.
Qed.

Lemma set_info_split_depth_again a w :
  param (self_info (state_after (ToTiff.set_info a)
                      (state_after (ToTiff.set_info a) w))) !! "split_depth"
  = param (self_info (state_after (ToTiff.set_info a) w)) !! "split_depth".
Proof.
  rewrite (set_info_split_depth a (state_after _ _)).
  rewrite calibrate_outcome_again, set_info_key_again, set_info_req0 by done.
  pose proof (set_info_split_depth a w) as H1.
  destruct (outcome_of (ToTiff.calibrate a) (prepared a w)) as [[]|e];
    destruct (ToTiff.deref a w !! "split_depth"); try (now rewrite H1).
  all: rewrite H1; now apply union_lookup_absorb.
Qed.

End Again.

(** X3.  [set_info] is idempotent: a second call, made on the objects as the
    first call left them, ends the same way (returns, or raises the same
    exception) and changes nothing: metadata and dictionaries stay as the
    first call left them. *)
Theorem set_info_idempotent {C : InfoConstants} (a : param_arg) (w : World) :
  ToTiff.set_info a (state_after (ToTiff.set_info a) w)
  = (state_after (ToTiff.set_info a) w, outcome_of (ToTiff.set_info a) w).
Proof.
  assert (Ho : outcome_of (ToTiff.set_info a) (state_after (ToTiff.set_info a) w)
               = outcome_of (ToTiff.set_info a) w).
  { rewrite !set_info_outcome, calibrate_outcome_again.
    now rewrite set_info_key_again. }
  assert (Hs : state_after (ToTiff.set_info a) (state_after (ToTiff.set_info a) w)
               = state_after (ToTiff.set_info a) w).
  { apply World_eq.
    - apply set_info_req0.
    - apply map_eq. intros k.
      destruct (decide (k = "pitch")) as [->|Hp];
        [apply set_info_pitch_again|].
      destruct (decide (k = "scalebar")) as [->|Hsb];
        [apply set_info_scalebar_again|].
      destruct (decide (k = "split_depth")) as [->|Hsd];
        [apply set_info_split_depth_again|].
      rewrite !set_info_param_other by done. now apply visible_info_again.
    - intros b. apply set_info_deref_again. }
  now apply run_eq.
Qed.

(** ** The exceptions of [set_info] *)

Lemma getitem_error v i e :
  Py.getitem v i = Raise e → e = IndexError ∨ e = TypeError.
Proof.
  destruct v as [| | |s|l]; cbn; try (intros [= <-]; now right).
  - destruct (String.get i s); intros [= <-]. now left.
  - destruct (l !! i); intros [= <-]. now left.
Qed.

Lemma as_float_error v e :
  Py.as_float v = Raise e → e = TypeError ∨ e = OverflowError.
Proof.
  destruct v as [|z| | |]; cbn; try (intros [= <-]; now left).
  unfold Py.float_of_int. cbv zeta.
  destruct (PrimFloat.is_infinity _); intros [= <-]. now right.
Qed.

Lemma truediv_error x y e :
  Py.truediv x y = Raise e →
  e = TypeError ∨ e = OverflowError ∨ e = ZeroDivisionError.
Proof.
  unfold Py.truediv.
  destruct (Py.as_float x) eqn:E.
  - destruct (PrimFloat.eqb y 0); intros [= <-]. auto.
  - intros [= <-]. destruct (as_float_error _ _ E); auto.
Qed.

Lemma mul_float_error x v e :
  Py.mul_float x v = Raise e → e = TypeError ∨ e = OverflowError.
Proof.
  unfold Py.mul_float. destruct (Py.as_float v) eqn:E; [discriminate|].
  intros [= <-]. exact (as_float_error _ _ E).
Qed.

Lemma float_op_error op x y e :
  Py.float_op op x y = Raise e → e = TypeError ∨ e = OverflowError.
Proof.
  unfold Py.float_op.
  destruct (Py.as_float x) eqn:Ex.
  - destruct (Py.as_float y) eqn:Ey; [discriminate|].
    intros [= <-]. exact (as_float_error _ _ Ey).
  - intros [= <-]. exact (as_float_error _ _ Ex).
Qed.

Lemma sub_error x y e :
  Py.sub x y = Raise e → e = TypeError ∨ e = OverflowError.
Proof.
  destruct x, y; cbn [Py.sub];
    first [apply float_op_error | intros [= <-]; now left].
Qed.

Ltac case_head E :=
  match goal with
  | |- match ?x with _ => _ end = _ → _ => destruct x eqn:E
  end.

(** Once the dictionary has a ["dpi"] item, the calibration block can only
    fail on the shape or the value of its inputs. *)
Lemma calibrate_error a w w' e :
  is_Some (ToTiff.deref a w !! "dpi") →
  ToTiff.calibrate a w = (w', Raise e) →
  e = IndexError ∨ e = TypeError ∨ e = ZeroDivisionError ∨ e = OverflowError.
Proof.
  intros [d Hd]. unfold_calibrate. cbn beta iota.
  destruct (_ && _ && _); cbn beta iota; [|discriminate].
  rewrite Hd.
  case_head E1;
    [|inversion 1; subst; destruct (getitem_error _ _ _ E1); auto].
  case_head E2;
    [|inversion 1; subst;
      destruct (truediv_error _ _ _ E2) as [?|[?|?]]; auto].
  cbn beta iota.
  case_head E3;
    [|inversion 1; subst; destruct (mul_float_error _ _ _ E3); auto].
  case_head E4;
    [|inversion 1; subst; destruct (getitem_error _ _ _ E4); auto].
  destruct (Py.is_not_none _); cbn beta iota; [|discriminate].
  case_head E5;
    [|inversion 1; subst; destruct (getitem_error _ _ _ E5); auto].
  case_head E6;
    [|inversion 1; subst; destruct (sub_error _ _ _ E6); auto].
  case_head E7;
    [|inversion 1; subst;
      destruct (truediv_error _ _ _ E7) as [?|[?|?]]; auto].
  discriminate.
Qed.

(** X4.  The exceptions [set_info] can raise on inputs made of None, ints,
    floats, strings and lists.  A KeyError is always about ["split_depth"],
    and only when the dictionary lacks that key: the reads of ["dpi"] and
    ["scalebar"] are guarded and never fail.  Any other exception comes from
    the calibration arithmetic: IndexError, TypeError, ZeroDivisionError, or
    the OverflowError of an int too large for a float. *)
Theorem set_info_exceptions {C : InfoConstants} (a : param_arg) (w : World)
    (e : exn) :
  outcome_of (ToTiff.set_info a) w = Raise e →
  (e = KeyError "split_depth" ∧ ToTiff.deref a w !! "split_depth" = None)
  ∨ e = IndexError ∨ e = TypeError ∨ e = ZeroDivisionError
  ∨ e = OverflowError.
Proof.
  rewrite set_info_outcome. unfold outcome_of.
  destruct (ToTiff.calibrate a (prepared a w)) as [w' [[]|e']] eqn:Hc; cbn [snd].
  - destruct (ToTiff.deref a w !! "split_depth"); [discriminate|].
    intros [= <-]. now left.
  - intros [= <-]. right.
    eapply calibrate_error; [|exact Hc]. rewrite prepared_dpi. eauto.
Qed.

Lemma set_info_exceptions_witness :
  let w := fresh_world
             (figure_params limit_0_10_0_5
                (PList [PInt (10 ^ 400); PFloat 3]) (PStr "um"))
             {["split_depth" := PInt 1]} in
  outcome_of (ToTiff.set_info (C := sample_constants) Supplied) w
  = Raise OverflowError
  ∧ ((OverflowError = KeyError "split_depth"
      ∧ caller_param w !! "split_depth" = None)
     ∨ OverflowError = IndexError
     ∨ OverflowError = TypeError
     ∨ OverflowError = ZeroDivisionError
     ∨ OverflowError = OverflowError).
Proof.
  intros w.
  assert (H : outcome_of (ToTiff.set_info (C := sample_constants) Supplied) w
              = Raise OverflowError) by (vm_compute; reflexivity).
  split; [exact H|].
  exact (set_info_exceptions (C := sample_constants) Supplied w
           OverflowError H).
Defined.

(** ** [process]: the resolution it needs *)

Lemma process_no_scalebar renderer plot_accepts (prm : dict) fig :
  prm !! "scalebar" = None →
  process renderer plot_accepts prm fig
  = match prm !! "dpi" with
    | Some d => get_stack renderer d fig
    | None => (fig, Raise (KeyError "dpi"))
    end.
Proof.
  intros Hs. unfold process, draw_scalebar, when.
  rewrite bool_decide_eq_false_2 by (rewrite Hs; intros [? ?]; discriminate).
  unfold bind at 1, ret, dict_item, bind, lift.
  now destruct (prm !! "dpi").
Qed.

(** X5.  [process] has no default resolution: on a dictionary without
    ["dpi"] (and without a scale bar) it raises KeyError and leaves the
    figure alone.  Because [set_info] writes its default into the caller's
    dictionary, the same dictionary after a call of [set_info] rasterises at
    400 dpi. *)
Theorem process_needs_dpi_from_set_info {C : InfoConstants}
    (renderer : list Axes → pyval → Canvas)
    (plot_accepts : list pyval → list pyval → pyval → pyval → outcome unit)
    (w : World) (fig : Figure) :
  caller_param w !! "dpi" = None →
  caller_param w !! "scalebar" = None →
  process renderer plot_accepts (caller_param w) fig
  = (fig, Raise (KeyError "dpi"))
  ∧ process renderer plot_accepts
      (caller_param (state_after (ToTiff.set_info Supplied) w)) fig
    = get_stack renderer (PInt 400) fig.
Proof.
  intros Hd Hs. split.
  - rewrite process_no_scalebar by done. now rewrite Hd.
  - pose proof (set_info_deref Supplied Supplied w) as H.
    rewrite prepared_deref in H. cbn [ToTiff.deref] in H.
    unfold dpi_of in H. rewrite Hd in H. cbn [default] in H.
    rewrite H, process_no_scalebar by now rewrite lookup_insert_ne.
    now rewrite lookup_insert_eq.
Qed.

Lemma process_needs_dpi_from_set_info_witness :
  let w := fresh_world ∅ {["split_depth" := PInt 1]} in
  process counting_renderer lenient_plot (caller_param w) empty_figure
  = (empty_figure, Raise (KeyError "dpi"))
  ∧ process counting_renderer lenient_plot
      (caller_param
         (state_after (ToTiff.set_info (C := sample_constants) Supplied) w))
      empty_figure
    = get_stack counting_renderer (PInt 400) empty_figure.
Proof.
  intros w.
  apply (process_needs_dpi_from_set_info (C := sample_constants)
           counting_renderer lenient_plot w empty_figure);
    reflexivity.
Defined.

(** ** [process]: what it does to the figure *)

Ltac unfold_draw :=
  unfold draw_scalebar, when, dict_item_at, dict_item, bind, lift, axes0,
    axes0_plot.

(** Case analysis on a scrutinee that is not itself a case analysis. *)
Ltac case_any :=
  match goal with
  | |- context [match ?x with _ => _ end] =>
      lazymatch x with
      | context [match _ with _ => _ end] => fail
      | _ => destruct x
      end
  end; cbn beta iota; cbn [axes].

(** On two figures that both have axes, the scale-bar block does the same
    thing: it leaves both alone with the same outcome, or it appends the
    same line to the first axes of each. *)
Lemma draw_scalebar_uniform plot_accepts (prm : dict) (f f' : Figure)
    ax rest ax' rest' :
  axes f = ax :: rest → axes f' = ax' :: rest' →
  (∃ r, draw_scalebar plot_accepts prm f = (f, r)
        ∧ draw_scalebar plot_accepts prm f' = (f', r))
  ∨ (∃ line,
       draw_scalebar plot_accepts prm f = (with_line f ax rest line, Ok tt)
       ∧ draw_scalebar plot_accepts prm f'
         = (with_line f' ax' rest' line, Ok tt)).
Proof.
  intros Hax Hax'. unfold_draw; unfold ret.
  destruct f as [axs d c], f' as [axs' d' c']. cbn [axes] in Hax, Hax'.
  subst axs axs'.
  destruct (bool_decide _); cbn beta iota; [|left; eauto].
  repeat case_any; first [left; eexists; split; reflexivity
                         |right; eexists; split; reflexivity].
Qed.

(** Without axes the block never draws. *)
Lemma draw_scalebar_no_axes plot_accepts (prm : dict) (f : Figure) :
  axes f = [] → ∃ r, draw_scalebar plot_accepts prm f = (f, r).
Proof.
  intros Hax. unfold_draw; unfold ret.
  destruct f as [axs d c]. cbn [axes] in Hax. subst axs.
  destruct (bool_decide _); cbn beta iota; [|eauto].
  repeat case_any; eauto.
Qed.

Lemma process_axes renderer plot_accepts (prm : dict) f :
  axes (state_after (process renderer plot_accepts prm) f)
  = axes (state_after (draw_scalebar plot_accepts prm) f).
Proof.
  unfold process, state_after. unfold bind at 1.
  destruct (draw_scalebar plot_accepts prm f) as [f1 [[]|e]]; [|reflexivity].
  apply rasterize_axes.
Qed.

(** X6.  Whatever its parameters and however it ends, [process] either
    leaves the artists of the figure as they were or appends exactly one
    line to the first axes; lines already drawn and the other axes are never
    changed. *)
Theorem process_appends_at_most_one_line
    (renderer : list Axes → pyval → Canvas)
    (plot_accepts : list pyval → list pyval → pyval → pyval → outcome unit)
    (prm : dict) (fig : Figure) :
  axes (state_after (process renderer plot_accepts prm) fig) = axes fig
  ∨ ∃ ax rest line,
      axes fig = ax :: rest
      ∧ axes (state_after (process renderer plot_accepts prm) fig)
        = {| lines := lines ax ++ [line] |} :: rest.
Proof.
  rewrite process_axes. unfold state_after.
  destruct (axes fig) as [|ax rest] eqn:Hax.
  - destruct (draw_scalebar_no_axes plot_accepts prm fig Hax) as [r ->]. now left.
  - destruct (draw_scalebar_uniform plot_accepts prm fig fig ax rest ax rest
                Hax Hax)
      as [(r & -> & _)|(line & -> & _)]; [now left|].
    right. now exists ax, rest, line.
Qed.

(** X7.  [process] is not idempotent on the figure: when a call has drawn
    the scale bar, a second call with the same parameters draws the same bar
    once more, so the first axes end with two equal lines. *)
Theorem process_twice_draws_twice
    (renderer : list Axes → pyval → Canvas)
    (plot_accepts : list pyval → list pyval → pyval → pyval → outcome unit)
    (prm : dict) (fig : Figure)
    (ax : Axes) (rest : list Axes) (line : Line2D) :
  axes fig = ax :: rest →
  axes (state_after (process renderer plot_accepts prm) fig)
  = {| lines := lines ax ++ [line] |} :: rest →
  axes (state_after (process renderer plot_accepts prm)
          (state_after (process renderer plot_accepts prm) fig))
  = {| lines := lines ax ++ [line; line] |} :: rest.
Proof.
  intros Hax H1.
  rewrite process_axes. rewrite process_axes in H1.
  destruct (draw_scalebar_uniform plot_accepts prm fig
              (state_after (process renderer plot_accepts prm) fig)
              ax rest _ rest Hax ltac:(rewrite process_axes; exact H1))
    as [(r & Hr & _)|(line' & Hr & Hr')].
  - exfalso. unfold state_after in H1. rewrite Hr in H1. cbn [fst] in H1.
    rewrite Hax in H1. injection H1 as H1.
    apply (f_equal lines) in H1. cbn [lines] in H1.
    apply (f_equal length) in H1. rewrite length_app in H1. cbn in H1. lia.
  - unfold state_after in H1 at 1. rewrite Hr in H1. cbn [fst with_line axes] in H1.
    injection H1 as H1. apply app_inj_tail in H1 as [_ ->].
    unfold state_after at 1. rewrite Hr'. cbn [fst with_line axes lines].
    now rewrite <- app_assoc.
Qed.

Lemma process_twice_draws_twice_witness :
  let prm : dict :=
    {[ "limit" := limit_0_10_0_5;
       "scalebar" := PList [PInt 2; PInt 0; PInt 0; PInt 1;
                            PList [PInt 255; PInt 255; PInt 255]];
       "dpi" := PInt 400 ]} in
  let bar := {| xdata := [PInt 0; PInt 2]; ydata := [PInt 0; PInt 0];
                linewidth := PInt 1;
                color := PList [PFloat 1; PFloat 1; PFloat 1] |} in
  axes (state_after (process blank_renderer lenient_plot prm)
          (state_after (process blank_renderer lenient_plot prm) empty_figure))
  = [ {| lines := [bar; bar] |} ].
Proof.
  intros prm bar.
  apply (process_twice_draws_twice blank_renderer lenient_plot prm
           empty_figure
           {| lines := [] |} [] bar); vm_compute; reflexivity.
Defined.

(** ** Nothing is lost in the planes *)

Lemma planes_determine_buffer {A} (h w : nat) (buf buf' : list A) :
  length buf = (h * w * 3)%nat → length buf' = (h * w * 3)%nat →
  (∀ c, (c < 3)%nat →
     Np.flipud (Np.plane c (Np.chunks w 3 <$> Np.chunks h (w * 3) buf))
     = Np.flipud (Np.plane c (Np.chunks w 3 <$> Np.chunks h (w * 3) buf'))) →
  buf = buf'.
Proof.
  intros Hlen Hlen' Hplanes. apply list_eq. intros k.
  destruct (decide (k < h * w * 3)%nat) as [Hk|Hk].
  - set (c := (k mod 3)%nat). set (q := (k / 3)%nat).
    set (j := (q mod w)%nat). set (r := (q / w)%nat).
    assert (Hk3 : k = (3 * q + c)%nat) by apply Nat.div_mod_eq.
    assert (Hc : (c < 3)%nat) by (apply Nat.mod_upper_bound; lia).
    assert (Hq : (q < h * w)%nat) by lia.
    assert (Hw : (0 < w)%nat) by (destruct w; lia).
    assert (Hqw : q = (w * r + j)%nat) by apply Nat.div_mod_eq.
    assert (Hj : (j < w)%nat) by (apply Nat.mod_upper_bound; lia).
    assert (Hr : (r < h)%nat)
      by (apply Nat.Div0.div_lt_upper_bound; lia).
    clearbody c q j r.
    destruct (flipped_plane h w buf Hlen c Hc) as (_ & _ & Hent).
    destruct (flipped_plane h w buf' Hlen' c Hc) as (_ & _ & Hent').
    specialize (Hent (h - 1 - r)%nat j ltac:(lia) Hj).
    specialize (Hent' (h - 1 - r)%nat j ltac:(lia) Hj).
    rewrite (Hplanes c Hc), Hent' in Hent.
    replace (h - 1 - (h - 1 - r))%nat with r in Hent by lia.
    replace ((r * w + j) * 3 + c)%nat with k in Hent by lia.
    now symmetry.
  - rewrite !lookup_ge_None_2 by lia. reflexivity.
Qed.

(** X8.  The three planes keep everything that was on the canvas: two
    canvases of the same pixel size, each with a buffer of the right length,
    that give the same result in [get_stack] have the same buffer. *)
Theorem get_stack_lossless (renderer renderer' : list Axes → pyval → Canvas)
    (fig fig' : Figure) (d d' : pyval) :
  let cv := renderer (axes fig) d in
  let cv' := renderer' (axes fig') d' in
  width_height cv' = width_height cv →
  length (buffer_rgb cv)
  = (snd (width_height cv) * fst (width_height cv) * 3)%nat →
  length (buffer_rgb cv')
  = (snd (width_height cv) * fst (width_height cv) * 3)%nat →
  outcome_of (get_stack renderer d) fig
  = outcome_of (get_stack renderer' d') fig' →
  buffer_rgb cv = buffer_rgb cv'.
Proof.
  intros cv cv' Hwh Hlen Hlen'.
  unfold outcome_of. rewrite !get_stack_run. cbn [snd].
  fold cv cv'. rewrite Hwh.
  unfold Np.reshape3. rewrite Hlen, Hlen', Nat.eqb_refl.
  intros [= H0 H1 H2].
  eapply planes_determine_buffer; [exact Hlen|exact Hlen'|].
  intros [|[|[|c]]] Hc; (done || lia).
Qed.

Lemma get_stack_lossless_witness :
  buffer_rgb (counting_renderer [] (PInt 400))
  = buffer_rgb (counting_renderer [ {| lines := [] |} ] (PInt 72)).
Proof.
  apply (get_stack_lossless counting_renderer counting_renderer
           {| axes := []; dpi := PNone;
              canvas := {| width_height := (0, 0)%nat; buffer_rgb := [] |} |}
           empty_figure (PInt 400) (PInt 72)); reflexivity.
Defined.


(** ** Edge cases *)

(** X9.  A [limit] list with a single entry that is not None gets past both
    guards of the calibration and fails at [limit[1]]: when [size[0]] and
    the resolution convert to floats, [set_info] raises IndexError, stores
    no pitch and does not reach the split depth, whose entry stays as the
    copy of the inherited parameters left it. *)
Theorem set_info_short_limit {C : InfoConstants} (a : param_arg) (w : World)
    (l0 s0 : pyval) (srest : list pyval) (fs fd : float) :
  InfoM.get_param_value "limit" (visible_info a w) = PList [l0] →
  Py.is_not_none l0 = true →
  InfoM.get_param_value "size" (visible_info a w) = PList (s0 :: srest) →
  Py.truthy (InfoM.get_param_value "length_unit" (visible_info a w)) = true →
  Py.as_float s0 = Ok fs →
  Py.as_float (dpi_of (ToTiff.deref a w)) = Ok fd →
  outcome_of (ToTiff.set_info a) w = Raise IndexError
  ∧ param (self_info (state_after (ToTiff.set_info a) w)) !! "pitch"
    = param (visible_info a w) !! "pitch"
  ∧ param (self_info (state_after (ToTiff.set_info a) w)) !! "split_depth"
    = param (visible_info a w) !! "split_depth".
Proof.
  intros Hl Hnn Hs Hu Hfs Hfd.
  rewrite <- prepared_info in Hl, Hs, Hu.
  assert (Hrun : ToTiff.calibrate a (prepared a w)
                 = (prepared a w, Raise IndexError)).
  { destruct (pixel_run _ _ _ _ Hfs Hfd) as (inches & Hin & Hpx).
    unfold_calibrate. rewrite Hl, Hs, Hu.
    cbn [Py.truthy length Nat.eqb negb andb Py.getitem lookup list_lookup].
    rewrite Hin, prepared_dpi, Hpx, Hnn. reflexivity. }
  split; [|split].
  - rewrite set_info_outcome. unfold outcome_of. now rewrite Hrun.
  - rewrite (pitch_lookup_run _ _ _ _ Hrun). now rewrite prepared_info.
  - rewrite set_info_split_depth, (visible_info_lookup a w "split_depth")
      by done.
    unfold outcome_of. now rewrite Hrun.
Qed.

Lemma set_info_short_limit_witness :
  let w := fresh_world
             (figure_params (PList [PInt 0]) (size_cm 5.08 3) (PStr "um"))
             {["split_depth" := PInt 1]} in
  outcome_of (ToTiff.set_info (C := sample_constants) Supplied) w
  = Raise IndexError
  ∧ param (self_info
             (state_after (ToTiff.set_info (C := sample_constants) Supplied) w))
      !! "pitch" = None
  ∧ param (self_info
             (state_after (ToTiff.set_info (C := sample_constants) Supplied) w))
      !! "split_depth" = None.
Proof.
  intros w.
  apply (set_info_short_limit (C := sample_constants) Supplied w (PInt 0)
           (PFloat 5.08) [PFloat 3] 5.08%float 400%float);
    vm_compute; reflexivity.
Defined.

(** X10.  For the scale bar [process] takes the limits from its own
    parameters: with a ["scalebar"] key but no ["limit"] key it raises
    KeyError for ["limit"], draws nothing and does not rasterise. *)
Theorem process_scalebar_needs_limit
    (renderer : list Axes → pyval → Canvas)
    (plot_accepts : list pyval → list pyval → pyval → pyval → outcome unit)
    (prm : dict) (fig : Figure) :
  is_Some (prm !! "scalebar") →
  prm !! "limit" = None →
  process renderer plot_accepts prm fig = (fig, Raise (KeyError "limit")).
Proof.
  intros Hs Hl. unfold process, draw_scalebar, when.
  rewrite bool_decide_eq_true_2 by done.
  unfold dict_item_at, dict_item, bind, lift. now rewrite Hl.
Qed.

Lemma process_scalebar_needs_limit_witness :
  process counting_renderer lenient_plot
    {[ "scalebar" := PList [PInt 2; PInt 0; PInt 0; PInt 1;
                            PList [PInt 0; PInt 0; PInt 0]];
       "dpi" := PInt 400 ]} empty_figure
  = (empty_figure, Raise (KeyError "limit")).
Proof.
  apply process_scalebar_needs_limit; [vm_compute; eauto|reflexivity].
Defined.

(** X11.  A dictionary that already has a ["dpi"] item comes back from
    [set_info] as it went in, and so does the dictionary that was not
    passed: the method writes to no key but ["dpi"]. *)
Theorem set_info_keeps_param_with_dpi {C : InfoConstants} (a b : param_arg)
    (w : World) :
  is_Some (ToTiff.deref a w !! "dpi") →
  ToTiff.deref b (state_after (ToTiff.set_info a) w) = ToTiff.deref b w.
Proof.
  intros [v Hv]. rewrite set_info_deref.
  assert (H : ToTiff.deref a (prepared a w) = ToTiff.deref a w).
  { rewrite prepared_deref. unfold dpi_of. rewrite Hv. now apply insert_id. }
  destruct a, b; try exact H; reflexivity.
Qed.

Lemma set_info_keeps_param_with_dpi_witness :
  let w := fresh_world ∅ {["dpi" := PInt 300; "split_depth" := PInt 1]} in
  caller_param (state_after (ToTiff.set_info (C := sample_constants) Supplied) w)
  = caller_param w.
Proof.
  intros w.
  apply (set_info_keeps_param_with_dpi (C := sample_constants)
           Supplied Supplied w).
  vm_compute. eauto.
Defined.
